(** * Atom to RSS converter

    A model of [AtomToRSSConverterApp.process_feed]
    (atom-to-rss-bald-to-bran.py) and of the library calls it makes:
    the BeautifulSoup tree API, [dateutil.parser.isoparse] and
    [email.utils.format_datetime].

    Text is modelled as [string]; a character stands for a code point
    below 256. *)

From Stdlib Require Import List String Ascii ZArith Lia Bool Arith.
From Stdlib Require Import DecimalString.
Import ListNotations.
Set Warnings "-register-all".
Local Open Scope string_scope.

(** Sequencing of fallible steps: [None] stands for a raised exception. *)
Notation "x <- a ;; b" :=
  (match a with Some x => b | None => None end)
    (at level 61, a at next level, right associativity).
Notation "' pat <- a ;; b" :=
  (match a with Some pat => b | None => None end)
    (at level 61, pat pattern, a at next level, right associativity).

(** ** Python [str] methods used by the converter *)

Module PyStr.

(** [str.isspace] on one character (code points below 256). *)
Definition isspace (c : ascii) : bool :=
  let n := nat_of_ascii c in
  (Nat.leb 9 n && Nat.leb n 13) || (Nat.leb 28 n && Nat.leb n 32)
  || Nat.eqb n 133 || Nat.eqb n 160.

Fixpoint lstrip (s : string) : string :=
  match s with
  | EmptyString => EmptyString
  | String c r => if isspace c then lstrip r else s
  end.

Fixpoint rstrip (s : string) : string :=
  match s with
  | EmptyString => EmptyString
  | String c r =>
      match rstrip r with
      | EmptyString => if isspace c then EmptyString else String c EmptyString
      | r' => String c r'
      end
  end.

(** [s.strip()] *)
Definition strip (s : string) : string := rstrip (lstrip s).

(** Truth value of a [str]: non-empty. *)
Definition truthy (s : string) : bool := negb (s =? "").

(** [s[a:b]] for [0 <= a <= b]. *)
Definition slice (a b : nat) (s : string) : string := substring a (b - a) s.

(** [s[a:]] *)
Fixpoint slice_from (a : nat) (s : string) : string :=
  match a, s with
  | O, _ => s
  | S a', String _ r => slice_from a' r
  | S _, EmptyString => EmptyString
  end.

(** The scan of [s.replace(old, new)] for a non-empty [old]: leftmost
    occurrences, not overlapping. [skip] counts the characters of the
    occurrence just replaced that are still to be passed over. *)
Fixpoint replace_scan (old new : string) (skip : nat) (s : string) : string :=
  match s with
  | EmptyString => EmptyString
  | String c r =>
      match skip with
      | S k => replace_scan old new k r
      | O =>
          if prefix old s
          then new ++ replace_scan old new (length old - 1) r
          else String c (replace_scan old new 0 r)
      end
  end.

(** With an empty [old], Python puts [new] before every character and
    at the end. *)
Fixpoint intersperse (new s : string) : string :=
  match s with
  | EmptyString => new
  | String c r => new ++ String c (intersperse new r)
  end.

Definition replace (old new s : string) : string :=
  match old with
  | EmptyString => intersperse new s
  | _ => replace_scan old new 0 s
  end.

Fixpoint contains_colon (s : string) : bool :=
  match s with
  | EmptyString => false
  | String c r => Ascii.eqb c ":" || contains_colon r
  end.

(** [sep.join(l)] with an empty separator. *)
Definition join (l : list string) : string := fold_right append "" l.

End PyStr.

(** ** The BeautifulSoup tree *)

Module Soup.

(** The classes of strings in a tree: [NavigableString] proper and its
    subclasses. *)
Inductive StringClass : Type :=
| NavigableString | CData | Comment | ProcessingInstruction
| Declaration | Doctype.

Definition StringClass_eqb (a b : StringClass) : bool :=
  match a, b with
  | NavigableString, NavigableString | CData, CData | Comment, Comment
  | ProcessingInstruction, ProcessingInstruction
  | Declaration, Declaration | Doctype, Doctype => true
  | _, _ => false
  end.

(** A [PageElement] is a string or a [Tag] with a namespace prefix, a
    name, attributes and contents. The [BeautifulSoup] object itself is
    a [Tag] whose contents are the top-level nodes. *)
Inductive PageElement : Type :=
| Str (cls : StringClass) (s : string)
| Tag (prefix : option string) (name : string)
      (attrs : list (string * string)) (contents : list PageElement).

Definition is_tag (e : PageElement) : bool :=
  match e with Tag _ _ _ _ => true | Str _ _ => false end.

Definition contents (e : PageElement) : list PageElement :=
  match e with Tag _ _ _ cs => cs | Str _ _ => [] end.

(** [tag.descendants]: every node below [e], in document order. *)
Fixpoint descendants (e : PageElement) : list PageElement :=
  match e with
  | Str _ _ => []
  | Tag _ _ _ cs => flat_map (fun c => c :: descendants c) cs
  end.

(** [dict.get] on the attributes. *)
Fixpoint attr_get (k : string) (attrs : list (string * string))
  : option string :=
  match attrs with
  | [] => None
  | (k', v) :: r => if k' =? k then Some v else attr_get k r
  end.

(** [tag.has_attr(k)] *)
Definition has_attr (k : string) (e : PageElement) : bool :=
  match e with
  | Tag _ _ attrs _ => match attr_get k attrs with Some _ => true | None => false end
  | Str _ _ => false
  end.

(** [tag[k]], where the key is known to be present. *)
Definition attr (k : string) (e : PageElement) : string :=
  match e with
  | Tag _ _ attrs _ => match attr_get k attrs with Some v => v | None => "" end
  | Str _ _ => ""
  end.

(** [SoupStrainer._matches] for a tag against a wanted name: the name
    itself, or else prefix, colon and name. *)
Definition name_matches (want : string) (e : PageElement) : bool :=
  match e with
  | Str _ _ => false
  | Tag p n _ _ =>
      (n =? want) ||
      match p with
      | Some px => PyStr.truthy px && ((px ++ ":" ++ n) =? want)
      | None => false
      end
  end.

(** A keyword filter such as [rel="alternate"]: the attribute is
    present and its value is exactly the wanted one. *)
Definition attr_matches (k v : string) (e : PageElement) : bool :=
  match e with
  | Str _ _ => false
  | Tag _ _ attrs _ =>
      match attr_get k attrs with Some v' => v' =? v | None => false end
  end.

(** [tag.find(name)] and [tag.find(name, k=v)]: the first match among
    the descendants. *)
Definition find (want : string) (e : PageElement) : option PageElement :=
  List.find (name_matches want) (descendants e).

Definition find_attr (want k v : string) (e : PageElement)
  : option PageElement :=
  List.find (fun d => name_matches want d && attr_matches k v d)
            (descendants e).

(** [tag.find_all(name)]: every tag of that name among the descendants
    (the fast path of [_find_all] compares the tag's name only). *)
Definition name_is (want : string) (e : PageElement) : bool :=
  match e with
  | Str _ _ => false
  | Tag _ n _ _ => n =? want
  end.

Definition find_all (want : string) (e : PageElement) : list PageElement :=
  filter (name_is want) (descendants e).

(** [tag.string]: the single string below a chain of only children. *)
Fixpoint string_of (e : PageElement) : option string :=
  match e with
  | Str _ s => Some s
  | Tag _ _ _ [c] => string_of c
  | Tag _ _ _ _ => None
  end.

(** The strings [get_text] collects: [NavigableString] and [CData]. *)
Definition text_string (e : PageElement) : option string :=
  match e with
  | Str NavigableString s | Str CData s => Some s
  | _ => None
  end.

(** [tag.get_text(strip=True)]: every text string below the tag is
    stripped, the empty ones are dropped, the rest are concatenated. *)
Definition stripped_strings (e : PageElement) : list string :=
  flat_map (fun d =>
              match text_string d with
              | Some s => let s' := PyStr.strip s in
                          if PyStr.truthy s' then [s'] else []
              | None => []
              end)
           (descendants e).

Definition get_text_strip (e : PageElement) : string :=
  PyStr.join (stripped_strings e).

(** [soup.new_tag(name)] and [soup.new_tag(name, k=v)] *)
Definition new_tag (name : string) (attrs : list (string * string))
  : PageElement := Tag None name attrs [].

(** [tag[k] = v] *)
Fixpoint attr_set (k v : string) (attrs : list (string * string))
  : list (string * string) :=
  match attrs with
  | [] => [(k, v)]
  | (k', v') :: r =>
      if k' =? k then (k', v) :: r else (k', v') :: attr_set k v r
  end.

Definition set_attr (k v : string) (e : PageElement) : PageElement :=
  match e with
  | Tag p n attrs cs => Tag p n (attr_set k v attrs) cs
  | Str _ _ => e
  end.

(** [tag.string = v]: the contents become one [NavigableString]. *)
Definition set_string (v : string) (e : PageElement) : PageElement :=
  match e with
  | Tag p n attrs _ => Tag p n attrs [Str NavigableString v]
  | Str _ _ => e
  end.

(** [tag.append(child)] *)
Definition append (child : PageElement) (e : PageElement) : PageElement :=
  match e with
  | Tag p n attrs cs => Tag p n attrs (cs ++ [child])%list
  | Str _ _ => e
  end.

End Soup.

(** ** Dates: [dateutil.parser.isoparse] and [email.utils.format_datetime] *)

Module Dates.

Local Open Scope Z_scope.

(** *** [int(b)] on a slice of the date string *)

(** [Py_ISSPACE] *)
Definition c_isspace (c : ascii) : bool :=
  let n := nat_of_ascii c in
  (Nat.leb 9 n && Nat.leb n 13) || Nat.eqb n 32.

Definition digit_val (c : ascii) : option Z :=
  let n := nat_of_ascii c in
  if Nat.leb 48 n && Nat.leb n 57 then Some (Z.of_nat n - 48) else None.

Definition is_digit (c : ascii) : bool :=
  match digit_val c with Some _ => true | None => false end.

Fixpoint all_space (s : string) : bool :=
  match s with
  | EmptyString => true
  | String c r => c_isspace c && all_space r
  end.

Fixpoint lstrip_c (s : string) : string :=
  match s with
  | EmptyString => EmptyString
  | String c r => if c_isspace c then lstrip_c r else s
  end.

(** The digits after the first one: single underscores may separate
    digits, white space may follow the last digit. *)
Fixpoint int_digits (acc : Z) (s : string) : option Z :=
  match s with
  | EmptyString => Some acc
  | String c r =>
      match digit_val c with
      | Some d => int_digits (10 * acc + d) r
      | None =>
          if Ascii.eqb c "_" then
            match r with
            | String c' r' =>
                match digit_val c' with
                | Some d => int_digits (10 * acc + d) r'
                | None => None
                end
            | EmptyString => None
            end
          else if all_space s then Some acc else None
      end
  end.

Definition int_body (s : string) : option Z :=
  match s with
  | String c r =>
      match digit_val c with
      | Some d => int_digits d r
      | None => None
      end
  | EmptyString => None
  end.

(** [int(s)] in base 10; [None] for [ValueError]. *)
Definition py_int (s : string) : option Z :=
  match lstrip_c s with
  | String "+" r => int_body r
  | String "-" r => option_map Z.opp (int_body r)
  | s' => int_body s'
  end.

(** *** The proleptic Gregorian calendar of [datetime] *)

Definition MINYEAR : Z := 1.
Definition MAXYEAR : Z := 9999.
Definition MAXORDINAL : Z := 3652059.

Definition is_leap (y : Z) : bool :=
  (y mod 4 =? 0) && (negb (y mod 100 =? 0) || (y mod 400 =? 0)).

Definition DAYS_IN_MONTH (m : Z) : Z :=
  match m with
  | 1 => 31 | 2 => 28 | 3 => 31 | 4 => 30 | 5 => 31 | 6 => 30
  | 7 => 31 | 8 => 31 | 9 => 30 | 10 => 31 | 11 => 30 | 12 => 31
  | _ => 0
  end.

Definition DAYS_BEFORE_MONTH (m : Z) : Z :=
  match m with
  | 1 => 0 | 2 => 31 | 3 => 59 | 4 => 90 | 5 => 120 | 6 => 151
  | 7 => 181 | 8 => 212 | 9 => 243 | 10 => 273 | 11 => 304 | 12 => 334
  | _ => 0
  end.

Definition days_in_month (y m : Z) : Z :=
  if (m =? 2) && is_leap y then 29 else DAYS_IN_MONTH m.

Definition days_before_year (year : Z) : Z :=
  let y := year - 1 in y * 365 + y / 4 - y / 100 + y / 400.

Definition days_before_month (y m : Z) : Z :=
  DAYS_BEFORE_MONTH m + (if (2 <? m) && is_leap y then 1 else 0).

Definition ymd2ord (y m d : Z) : Z :=
  days_before_year y + days_before_month y m + d.

Definition DI400Y : Z := 146097.
Definition DI100Y : Z := 36524.
Definition DI4Y : Z := 1461.

Definition ord2ymd (n0 : Z) : Z * Z * Z :=
  let n := n0 - 1 in
  let n400 := n / DI400Y in
  let n := n mod DI400Y in
  let year := n400 * 400 + 1 in
  let n100 := n / DI100Y in
  let n := n mod DI100Y in
  let n4 := n / DI4Y in
  let n := n mod DI4Y in
  let n1 := n / 365 in
  let n := n mod 365 in
  let year := year + n100 * 100 + n4 * 4 + n1 in
  if (n1 =? 4) || (n100 =? 4) then (year - 1, 12, 31)
  else
    let leapyear := (n1 =? 3) && (negb (n4 =? 24) || (n100 =? 3)) in
    let month := Z.shiftr (n + 50) 5 in
    let preceding :=
      DAYS_BEFORE_MONTH month + (if (2 <? month) && leapyear then 1 else 0) in
    if n <? preceding then
      let month := month - 1 in
      let preceding :=
        preceding
        - (DAYS_IN_MONTH month + (if (month =? 2) && leapyear then 1 else 0)) in
      (year, month, n - preceding + 1)
    else (year, month, n - preceding + 1).

(** [date.weekday()]: Monday is 0. *)
Definition weekday (y m d : Z) : Z := (ymd2ord y m d + 6) mod 7.

(** A [datetime]; [tzinfo] holds the UTC offset in seconds of an aware
    value ([tz.UTC] has offset 0) and is [None] for a naive one. *)
Record datetime : Type := mk_datetime {
  year : Z; month : Z; day : Z;
  hour : Z; minute : Z; second : Z; microsecond : Z;
  tzinfo : option Z
}.

Definition check_date_fields (y m d : Z) : bool :=
  (MINYEAR <=? y) && (y <=? MAXYEAR) && (1 <=? m) && (m <=? 12)
  && (1 <=? d) && (d <=? days_in_month y m).

Definition check_time_fields (hh mm ss us : Z) : bool :=
  (0 <=? hh) && (hh <=? 23) && (0 <=? mm) && (mm <=? 59)
  && (0 <=? ss) && (ss <=? 59) && (0 <=? us) && (us <=? 999999).

(** The constructor [datetime(y, m, d, hh, mm, ss, us, tz)]. *)
Definition new_datetime (y m d hh mm ss us : Z) (tz : option Z)
  : option datetime :=
  if check_date_fields y m d && check_time_fields hh mm ss us
  then Some (mk_datetime y m d hh mm ss us tz) else None.

(** [date(y, m, d) + timedelta(days=n)], for a valid date. *)
Definition date_add_days (y m d n : Z) : option (Z * Z * Z) :=
  let o := ymd2ord y m d + n in
  if (1 <=? o) && (o <=? MAXORDINAL) then Some (ord2ymd o) else None.

Definition datetime_add_days (dt : datetime) (n : Z) : option datetime :=
  '(y, m, d) <- date_add_days (year dt) (month dt) (day dt) n ;;
  Some (mk_datetime y m d (hour dt) (minute dt) (second dt)
                    (microsecond dt) (tzinfo dt)).

(** *** [dateutil.parser.isoparser] *)

Definition DATE_SEP : string := "-".
Definition TIME_SEP : string := ":".

Definition parse_isodate_common (dt_str : string)
  : option (Z * Z * Z * nat) :=
  let len_str := String.length dt_str in
  if Nat.ltb len_str 4 then None else
  y <- py_int (PyStr.slice 0 4 dt_str) ;;
  let pos := 4%nat in
  if Nat.leb len_str pos then Some (y, 1, 1, pos) else
  let has_sep := String.eqb (PyStr.slice pos (pos + 1) dt_str) DATE_SEP in
  let pos := if has_sep then (pos + 1)%nat else pos in
  if Nat.ltb (len_str - pos) 2 then None else
  m <- py_int (PyStr.slice pos (pos + 2) dt_str) ;;
  let pos := (pos + 2)%nat in
  if Nat.leb len_str pos then
    (if has_sep then Some (y, m, 1, pos) else None)
  else
  if has_sep && negb (String.eqb (PyStr.slice pos (pos + 1) dt_str) DATE_SEP)
  then None else
  let pos := if has_sep then (pos + 1)%nat else pos in
  if Nat.ltb (len_str - pos) 2 then None else
  d <- py_int (PyStr.slice pos (pos + 2) dt_str) ;;
  Some (y, m, d, (pos + 2)%nat).

Definition calculate_weekdate (year week day : Z) : option (Z * Z * Z) :=
  if negb ((0 <? week) && (week <? 54)) then None else
  if negb ((0 <? day) && (day <? 8)) then None else
  if negb (check_date_fields year 1 4) then None else
  let isoweekday := weekday year 1 4 + 1 in
  '(y1, m1, d1) <- date_add_days year 1 4 (- (isoweekday - 1)) ;;
  date_add_days y1 m1 d1 ((week - 1) * 7 + (day - 1)).

Definition parse_isodate_uncommon (dt_str : string)
  : option (Z * Z * Z * nat) :=
  let len_str := String.length dt_str in
  if Nat.ltb len_str 4 then None else
  year <- py_int (PyStr.slice 0 4 dt_str) ;;
  let has_sep := String.eqb (PyStr.slice 4 5 dt_str) DATE_SEP in
  let pos := if has_sep then 5%nat else 4%nat in
  if String.eqb (PyStr.slice pos (pos + 1) dt_str) "W" then
    let pos := (pos + 1)%nat in
    weekno <- py_int (PyStr.slice pos (pos + 2) dt_str) ;;
    let pos := (pos + 2)%nat in
    if Nat.ltb pos len_str then
      if negb (Bool.eqb (String.eqb (PyStr.slice pos (pos + 1) dt_str) DATE_SEP)
                        has_sep)
      then None else
      let pos := if has_sep then (pos + 1)%nat else pos in
      dayno <- py_int (PyStr.slice pos (pos + 1) dt_str) ;;
      '(y, m, d) <- calculate_weekdate year weekno dayno ;;
      Some (y, m, d, (pos + 1)%nat)
    else
      '(y, m, d) <- calculate_weekdate year weekno 1 ;;
      Some (y, m, d, pos)
  else
    if Nat.ltb (len_str - pos) 3 then None else
    ordinal_day <- py_int (PyStr.slice pos (pos + 3) dt_str) ;;
    let pos := (pos + 3)%nat in
    if (ordinal_day <? 1)
       || (365 + (if is_leap year then 1 else 0) <? ordinal_day)
    then None else
    if negb (check_date_fields year 1 1) then None else
    '(y, m, d) <- date_add_days year 1 1 (ordinal_day - 1) ;;
    Some (y, m, d, pos).

(** [try: common except ValueError: uncommon] *)
Definition parse_isodate (dt_str : string) : option (Z * Z * Z * nat) :=
  match parse_isodate_common dt_str with
  | Some r => Some r
  | None => parse_isodate_uncommon dt_str
  end.

(** [_parse_tzstr]: the UTC offset in seconds. *)
Definition parse_tzstr (tzstr : string) : option Z :=
  if String.eqb tzstr "Z" || String.eqb tzstr "z" then Some 0 else
  let n := String.length tzstr in
  if negb (Nat.eqb n 3 || Nat.eqb n 5 || Nat.eqb n 6) then None else
  mult <- (if String.eqb (PyStr.slice 0 1 tzstr) "-" then Some (-1)
           else if String.eqb (PyStr.slice 0 1 tzstr) "+" then Some 1
           else None) ;;
  hours <- py_int (PyStr.slice 1 3 tzstr) ;;
  minutes <- (if Nat.eqb n 3 then Some 0
              else py_int (PyStr.slice_from
                             (if String.eqb (PyStr.slice 3 4 tzstr) TIME_SEP
                              then 4 else 3)%nat tzstr)) ;;
  if (hours =? 0) && (minutes =? 0) then Some 0 else
  if 59 <? minutes then None else
  if 23 <? hours then None else
  Some (mult * (hours * 60 + minutes) * 60).

(** [_FRACTION_REGEX.match]: a dot or a comma, then the longest run of
    digits, at least one. The result is the run and what follows it. *)
Fixpoint span_digits (s : string) : string * string :=
  match s with
  | String c r =>
      if is_digit c then let '(ds, rest) := span_digits r in (String c ds, rest)
      else (EmptyString, s)
  | EmptyString => (EmptyString, EmptyString)
  end.

Definition match_fraction (s : string) : option string :=
  match s with
  | String c r =>
      if Ascii.eqb c "." || Ascii.eqb c "," then
        match span_digits r with
        | (EmptyString, _) => None
        | (ds, _) => Some ds
        end
      else None
  | EmptyString => None
  end.

(** The components [hour, minute, second, microsecond, tzinfo]. *)
Definition time_components : Type := Z * Z * Z * Z * option Z.

Definition set_component (comp : nat) (v : Z) (c : time_components)
  : time_components :=
  let '(hh, mm, ss, us, tz) := c in
  match comp with
  | 0%nat => (v, mm, ss, us, tz)
  | 1%nat => (hh, v, ss, us, tz)
  | 2%nat => (hh, mm, v, us, tz)
  | _ => (hh, mm, ss, v, tz)
  end.

(** The [while pos < len_str and comp < 5] loop of [_parse_isotime];
    [comp] is the value after its increment, [fuel] the iterations
    left. *)
Fixpoint isotime_loop (fuel : nat) (timestr : string) (comp : nat)
         (has_sep : bool) (c : time_components) (pos : nat)
  : option (time_components * nat) :=
  match fuel with
  | O => Some (c, pos)
  | S fuel' =>
      let len_str := String.length timestr in
      if Nat.leb len_str pos then Some (c, pos) else
      let ch := PyStr.slice pos (pos + 1) timestr in
      if String.eqb ch "-" || String.eqb ch "+"
         || String.eqb ch "Z" || String.eqb ch "z"
      then
        tzv <- parse_tzstr (PyStr.slice_from pos timestr) ;;
        let '(hh, mm, ss, us, _) := c in
        Some ((hh, mm, ss, us, Some tzv), len_str)
      else
        '(has_sep, pos) <-
           (if Nat.eqb comp 1 && String.eqb ch TIME_SEP
            then Some (true, (pos + 1)%nat)
            else if Nat.eqb comp 2 && has_sep
            then (if String.eqb ch TIME_SEP
                  then Some (has_sep, (pos + 1)%nat) else None)
            else Some (has_sep, pos)) ;;
        if Nat.ltb comp 3 then
          v <- py_int (PyStr.slice pos (pos + 2) timestr) ;;
          isotime_loop fuel' timestr (S comp) has_sep
                       (set_component comp v c) (pos + 2)%nat
        else if Nat.eqb comp 3 then
          match match_fraction (PyStr.slice_from pos timestr) with
          | None => isotime_loop fuel' timestr (S comp) has_sep c pos
          | Some frac =>
              let us_str := PyStr.slice 0 6 frac in
              us <- py_int us_str ;;
              isotime_loop fuel' timestr (S comp) has_sep
                (set_component comp
                   (us * 10 ^ (6 - Z.of_nat (String.length us_str))) c)
                (pos + 1 + String.length frac)%nat
          end
        else isotime_loop fuel' timestr (S comp) has_sep c pos
  end.

Definition parse_isotime (timestr : string) : option time_components :=
  let len_str := String.length timestr in
  if Nat.ltb len_str 2 then None else
  '(c, pos) <- isotime_loop 6 timestr 0 false (0, 0, 0, 0, None) 0%nat ;;
  if Nat.ltb pos len_str then None else
  let '(hh, mm, ss, us, tz) := c in
  if (hh =? 24) && negb ((mm =? 0) && (ss =? 0) && (us =? 0)) then None
  else Some c.

Definition is_ascii (c : ascii) : bool := Nat.ltb (nat_of_ascii c) 128.

Fixpoint all_ascii (s : string) : bool :=
  match s with
  | EmptyString => true
  | String c r => is_ascii c && all_ascii r
  end.

(** [isoparse(dt_str)] of the default parser, which takes any single
    character between the date and the time. *)
Definition isoparse (dt_str : string) : option datetime :=
  if negb (all_ascii dt_str) then None else
  '(y, m, d, pos) <- parse_isodate dt_str ;;
  if Nat.ltb pos (String.length dt_str) then
    '(hh, mm, ss, us, tz) <-
       parse_isotime (PyStr.slice_from (pos + 1) dt_str) ;;
    if hh =? 24 then
      dt <- new_datetime y m d 0 mm ss us tz ;;
      datetime_add_days dt 1
    else new_datetime y m d hh mm ss us tz
  else new_datetime y m d 0 0 0 0 None.

(** *** [email.utils.format_datetime] *)

Definition zeros (n : nat) : string := PyStr.join (repeat "0"%string n).

Definition decimal (n : Z) : string :=
  NilZero.string_of_uint (N.to_uint (Z.to_N n)).

(** ['%0wd' % n] *)
Definition fmt_d (w : nat) (n : Z) : string :=
  if n <? 0 then
    let s := decimal (- n) in
    ("-" ++ zeros (w - 1 - String.length s) ++ s)%string
  else
    let s := decimal n in (zeros (w - String.length s) ++ s)%string.

Definition day_name (wd : Z) : string :=
  match wd with
  | 0 => "Mon" | 1 => "Tue" | 2 => "Wed" | 3 => "Thu" | 4 => "Fri"
  | 5 => "Sat" | _ => "Sun"
  end.

Definition month_name (m : Z) : string :=
  match m with
  | 1 => "Jan" | 2 => "Feb" | 3 => "Mar" | 4 => "Apr" | 5 => "May"
  | 6 => "Jun" | 7 => "Jul" | 8 => "Aug" | 9 => "Sep" | 10 => "Oct"
  | 11 => "Nov" | _ => "Dec"
  end.

(** [dt.strftime("%z")] for an offset in seconds. *)
Definition strftime_z (off : Z) : option string :=
  if negb ((-86400 <? off) && (off <? 86400)) then None else
  let sign := if off <? 0 then "-" else "+" in
  let a := Z.abs off in
  let h := a / 3600 in
  let m := (a mod 3600) / 60 in
  let s := a mod 60 in
  Some (sign ++ fmt_d 2 h ++ fmt_d 2 m
             ++ (if Z.eqb s 0 then "" else fmt_d 2 s))%string.

Definition format_datetime (dt : datetime) : option string :=
  zone <- match tzinfo dt with
          | None => Some "-0000"%string
          | Some off => strftime_z off
          end ;;
  Some (day_name (weekday (year dt) (month dt) (day dt)) ++ ", "
        ++ fmt_d 2 (day dt) ++ " " ++ month_name (month dt) ++ " "
        ++ fmt_d 4 (year dt) ++ " " ++ fmt_d 2 (hour dt) ++ ":"
        ++ fmt_d 2 (minute dt) ++ ":" ++ fmt_d 2 (second dt) ++ " "
        ++ zone)%string.

(** The body of the [try] in step 3 of the entry loop: the text of
    [pubDate], or [None] when an exception is raised. *)
Definition rfc_822_date (date_str : string) : option string :=
  dt <- isoparse date_str ;;
  format_datetime dt.

End Dates.

(** ** Rendering a tree as text: [Tag.decode] and [prettify] *)

Module Output.
Import Soup.

(** [EntitySubstitution.substitute_xml]: what the minimal formatter does
    to every [NavigableString] and attribute value. *)
Fixpoint substitute_xml (s : string) : string :=
  match s with
  | EmptyString => EmptyString
  | String c r =>
      (if Ascii.eqb c "&" then "&amp;"
       else if Ascii.eqb c "<" then "&lt;"
       else if Ascii.eqb c ">" then "&gt;"
       else String c EmptyString) ++ substitute_xml r
  end.

(** [element.output_ready(formatter)] for a string of each class. *)
Definition output_ready (cls : StringClass) (s : string) : string :=
  match cls with
  | NavigableString => substitute_xml s
  | CData => "<![CDATA[" ++ s ++ "]]>"
  | Comment => "<!--" ++ s ++ "-->"
  | ProcessingInstruction => "<?" ++ s ++ "?>"
  | Declaration => "<?" ++ s ++ "?>"
  | Doctype => "<!DOCTYPE " ++ s ++ String "010" ">"
  end.

Definition dquote : string := String "034" EmptyString.
Definition squote : string := "'".
Definition newline : string := String "010" EmptyString.

Fixpoint contains_char (c : ascii) (s : string) : bool :=
  match s with
  | EmptyString => false
  | String c' r => Ascii.eqb c c' || contains_char c r
  end.

(** [Formatter.quoted_attribute_value] *)
Definition quoted_attribute_value (value : string) : string :=
  if contains_char "034" value then
    if contains_char "'" value
    then dquote ++ PyStr.replace dquote "&quot;" value ++ dquote
    else squote ++ value ++ squote
  else dquote ++ value ++ dquote.

(** [sorted(tag.attrs.items())] *)
Fixpoint insert_attr (a : string * string) (l : list (string * string))
  : list (string * string) :=
  match l with
  | [] => [a]
  | b :: r => if String.leb (fst a) (fst b) then a :: l
              else b :: insert_attr a r
  end.

Definition sorted_attrs (l : list (string * string))
  : list (string * string) := fold_right insert_attr [] l.

Definition attribute_string (attrs : list (string * string)) : string :=
  PyStr.join
    (map (fun kv => " " ++ fst kv ++ "="
                    ++ quoted_attribute_value (substitute_xml (snd kv)))
         (sorted_attrs attrs)).

Definition indent (n : nat) : string := PyStr.join (repeat " " n).

Definition ends_with_newline (s : string) : bool :=
  match get (String.length s - 1) s with
  | Some c => Ascii.eqb c "010"
  | None => false
  end.

(** The [BeautifulSoup] object is the one hidden tag. *)
Definition document_name : string := "[document]".
Definition BeautifulSoup (cs : list PageElement) : PageElement :=
  Tag None document_name [] cs.
Definition hidden (name : string) : bool := name =? document_name.

(** [Tag.decode(indent_level)] with the minimal formatter; the level is
    [None] when the text is not pretty-printed. [next_sibling] tells
    whether another node follows [e] under its parent. *)
Fixpoint decode (indent_level : option nat) (next_sibling : bool)
         (e : PageElement) {struct e} : string :=
  match e with
  | Str cls s => output_ready cls s
  | Tag p n attrs cs =>
      let pretty_print :=
        match indent_level with Some _ => true | None => false end in
      let prefix :=
        match p with
        | Some px => if PyStr.truthy px then px ++ ":" else ""
        | None => ""
        end in
      let close := match cs with [] => "/" | _ => "" end in
      let closeTag :=
        match cs with [] => "" | _ => "</" ++ prefix ++ n ++ ">" end in
      let indent_space :=
        match indent_level with Some l => indent (l - 1) | None => "" end in
      let indent_contents := option_map S indent_level in
      let contents :=
        (fix decode_contents (l : list PageElement) : string :=
           match l with
           | [] => ""
           | c :: r =>
               (match c with
                | Str cls s =>
                    let text := output_ready cls s in
                    match indent_contents with
                    | Some lvl =>
                        let text := PyStr.strip text in
                        if PyStr.truthy text
                        then indent (lvl - 1) ++ text ++ newline else ""
                    | None => text
                    end
                | Tag _ _ _ _ =>
                    decode indent_contents
                           (match r with [] => false | _ => true end) c
                end) ++ decode_contents r
           end) cs in
      if hidden n then contents
      else
        indent_space ++ "<" ++ prefix ++ n ++ attribute_string attrs
        ++ close ++ ">"
        ++ (if pretty_print then newline else "")
        ++ contents
        ++ (if pretty_print && PyStr.truthy contents
               && negb (ends_with_newline contents)
            then newline else "")
        ++ (if pretty_print && PyStr.truthy closeTag
            then indent_space else "")
        ++ closeTag
        ++ (if pretty_print && PyStr.truthy closeTag && next_sibling
            then newline else "")
  end.

(** [soup.prettify()] of an XML document: the declaration, then the
    tree at indentation level 0. The layout is the one of [decode] as
    bs4 has it up to version 4.12.0; later versions put one more line
    break at the very end of the text, after the end tag of the root,
    and the repository does not say which version it runs with. The
    theorems below name this text or describe how it begins and how
    single elements are laid out; none says how it ends. *)
Definition prettify (soup : PageElement) : string :=
  "<?xml version=" ++ dquote ++ "1.0" ++ dquote ++ " encoding=" ++ dquote
  ++ "utf-8" ++ dquote ++ "?>" ++ newline ++ decode (Some 0%nat) false soup.

End Output.

(** ** The conversion *)

Module Converter.
Import Soup.

Definition default_title : string := "Atom to RSS Feed".
Definition default_link : string := "http://example.com".
Definition default_description : string := "Converted from Atom feed".
Definition content_namespace : string :=
  "http://purl.org/rss/1.0/modules/content/".

(** A new tag holding one string: [t = new_tag(name); t.string = v]. *)
Definition text_tag (name v : string) : PageElement :=
  set_string v (new_tag name []).

(** Lines 104-124: the values of the channel's three fields. *)
Definition title_value (atom_soup : PageElement) : string :=
  match find "title" atom_soup with
  | Some feed_title => get_text_strip feed_title
  | None => default_title
  end.

Definition link_value (atom_soup : PageElement) : string :=
  match find_attr "link" "rel" "alternate" atom_soup with
  | Some feed_link =>
      if has_attr "href" feed_link then attr "href" feed_link
      else default_link
  | None => default_link
  end.

Definition desc_value (atom_soup : PageElement) : string :=
  match find "subtitle" atom_soup with
  | Some feed_subtitle => get_text_strip feed_subtitle
  | None => default_description
  end.

(** [tag and tag.string]: the string when the tag was found and its
    [.string] is neither [None] nor empty. *)
Definition found_string (tag : option PageElement) : option string :=
  match tag with
  | Some t =>
      match string_of t with
      | Some s => if PyStr.truthy s then Some s else None
      | None => None
      end
  | None => None
  end.

(** Lines 149-155: the date string of an entry. *)
Definition date_str (entry : PageElement) : option string :=
  let published_tag := find "published" entry in
  let updated_tag := find "updated" entry in
  match found_string published_tag with
  | Some s => Some (PyStr.strip s)
  | None =>
      match found_string updated_tag with
      | Some s => Some (PyStr.strip s)
      | None => None
      end
  end.

(** Lines 175-176: the text given to [content:encoded]. *)
Definition safe_html (raw_html : string) : string :=
  PyStr.replace "]]>" "]]]]><![CDATA[>" raw_html.

Definition cdata_str (raw_html : string) : string :=
  "<![CDATA[" ++ safe_html raw_html ++ "]]>".

(** Lines 130-182: the body of the loop, from an entry to its item. *)
Definition convert_entry (entry : PageElement) : PageElement :=
  let item_tag := new_tag "item" [] in
  (* 1) title *)
  let item_tag :=
    match find "title" entry with
    | Some entry_title =>
        append (text_tag "title" (get_text_strip entry_title)) item_tag
    | None => item_tag
    end in
  (* 2) link *)
  let item_tag :=
    match find_attr "link" "rel" "alternate" entry with
    | Some alt_link =>
        if has_attr "href" alt_link
        then append (text_tag "link" (attr "href" alt_link)) item_tag
        else item_tag
    | None => item_tag
    end in
  (* 3) pubDate *)
  let item_tag :=
    match date_str entry with
    | Some d =>
        if PyStr.truthy d then
          match Dates.rfc_822_date d with
          | Some rfc_822 => append (text_tag "pubDate" rfc_822) item_tag
          | None => item_tag
          end
        else item_tag
    | None => item_tag
    end in
  (* 4) content:encoded *)
  let item_tag :=
    match found_string (find "content" entry) with
    | Some raw_html =>
        append (text_tag "content:encoded" (cdata_str raw_html)) item_tag
    | None => item_tag
    end in
  item_tag.

(** Lines 127-183: the loop over the entries; the state is the channel
    tag and the counter. *)
Definition convert_entries (entries : list PageElement)
           (channel_tag : PageElement) : PageElement * nat :=
  fold_left (fun st entry =>
               let '(channel, count_items) := st in
               (append (convert_entry entry) channel, S count_items))
            entries (channel_tag, 0).

(** Lines 92-183: the RSS document built from the parsed feed, and the
    number of items. Python appends to [channel_tag] after it was put
    under [rss_tag]; here the document is assembled once the channel is
    complete. *)
Definition build_rss (atom_soup : PageElement) : PageElement * nat :=
  let rss_tag := new_tag "rss" [("version", "2.0")] in
  let rss_tag := set_attr "xmlns:content" content_namespace rss_tag in
  let channel_tag := new_tag "channel" [] in
  let channel_tag := append (text_tag "title" (title_value atom_soup)) channel_tag in
  let channel_tag := append (text_tag "link" (link_value atom_soup)) channel_tag in
  let channel_tag :=
    append (text_tag "description" (desc_value atom_soup)) channel_tag in
  let entries := find_all "entry" atom_soup in
  let '(channel_tag, count_items) := convert_entries entries channel_tag in
  (Output.BeautifulSoup [append channel_tag rss_tag], count_items).

End Converter.

(** ** The application: [process_feed] with its effects *)

Module App.
Import Soup Converter.

(** What a call that may raise gives back; [Raise] carries [str(e)]. *)
Inductive result (A : Type) : Type :=
| Ok (a : A)
| Raise (message : string).
Arguments Ok {A} a.
Arguments Raise {A} message.

Inductive MessageBox : Type :=
| showerror (title message : string)
| showinfo (title message : string).

(** The state [process_feed] reads and changes: the two paths, the text
    of the log pane, the dialogs shown so far and the files written so
    far (the latest first). *)
Record AppState : Type := mk_app {
  input_file_path : option string;
  output_file_path : option string;
  log_area : string;
  dialogs : list MessageBox;
  written : list (string * string)
}.

(** [self.log(message)] *)
Definition log (message : string) (app : AppState) : AppState :=
  mk_app (input_file_path app) (output_file_path app)
         (log_area app ++ message ++ Output.newline)
         (dialogs app) (written app).

Definition show (box : MessageBox) (app : AppState) : AppState :=
  mk_app (input_file_path app) (output_file_path app) (log_area app)
         (dialogs app ++ [box])%list (written app).

Definition write (path text : string) (app : AppState) : AppState :=
  mk_app (input_file_path app) (output_file_path app) (log_area app)
         (dialogs app) ((path, text) :: written app).

(** A path that passes [if not self.path]: set and not empty. *)
Definition selected (path : option string) : option string :=
  match path with
  | Some p => if PyStr.truthy p then Some p else None
  | None => None
  end.

(** How writing the output file fails: the message of the exception
    and what the file holds afterwards. [open(path, "w")] empties the
    file before anything is written to it, so a failure after [open]
    leaves the file with the text that got through, possibly none
    ([Some]); when [open] itself fails the file is as it was
    ([None]). *)
Record WriteFailure : Type := mk_failure {
  failure_message : string;
  file_left : option string
}.

(** [str(count_items)] *)
Definition str_of_nat (n : nat) : string :=
  NilZero.string_of_uint (Nat.to_uint n).

Definition success_message (count_items : nat) : string :=
  "Successfully created RSS 2.0 feed with " ++ str_of_nat count_items
  ++ " <item> entries.".

Section ProcessFeed.

(** The three calls that reach outside the program: reading the input
    file, [BeautifulSoup(atom_data, "xml")] and writing the output
    file ([None] when the text is written in full, [Some] with the
    failure otherwise). *)
Variable read_file : string -> result string.
Variable parse_xml : string -> result PageElement.
Variable write_file : string -> string -> option WriteFailure.

Definition process_feed (app : AppState) : AppState :=
  match selected (input_file_path app) with
  | None => show (showerror "Error" "No input file selected.") app
  | Some input_path =>
  match selected (output_file_path app) with
  | None => show (showerror "Error" "No output file selected.") app
  | Some output_path =>
  match read_file input_path with
  | Raise e =>
      show (showerror "File Read Error" e)
           (log ("ERROR reading input file: " ++ e) app)
  | Ok atom_data =>
  match parse_xml atom_data with
  | Raise e =>
      show (showerror "XML Parse Error" e)
           (log ("ERROR parsing XML: " ++ e) app)
  | Ok atom_soup =>
      let '(rss_soup, count_items) := build_rss atom_soup in
      let text := Output.prettify rss_soup in
      match write_file output_path text with
      | Some failure =>
          let e := failure_message failure in
          show (showerror "Write Error" e)
               (log ("ERROR writing output file: " ++ e)
                    match file_left failure with
                    | Some kept => write output_path kept app
                    | None => app
                    end)
      | None =>
          let msg := success_message count_items in
          show (showinfo "Done" msg) (log msg (write output_path text app))
      end
  end end end end.

End ProcessFeed.

(** [__init__]: no path is selected, the log pane is empty, nothing has
    been shown or written. *)
Definition init : AppState := mk_app None None "" [] [].

(** [select_input_file], given what [filedialog.askopenfilename]
    returns: the chosen path, or the empty string when the dialog is
    cancelled. *)
Definition select_input_file (file_path : string) (app : AppState)
  : AppState :=
  if PyStr.truthy file_path then
    log ("Selected input file: " ++ file_path)
        (mk_app (Some file_path) (output_file_path app) (log_area app)
                (dialogs app) (written app))
  else app.

(** [select_output_file], given what [filedialog.asksaveasfilename]
    returns. *)
Definition select_output_file (file_path : string) (app : AppState)
  : AppState :=
  if PyStr.truthy file_path then
    log ("Selected output file: " ++ file_path)
        (mk_app (input_file_path app) (Some file_path) (log_area app)
                (dialogs app) (written app))
  else app.

End App.

(** ** Reading back the text of an element *)

Module Xml.

Inductive mode : Type := CharData | InCDATA.

(** The character content an XML reader gives for the text [s] found
    between the tags of an element, when [s] is made of character data,
    references to the five predefined entities and CDATA sections;
    [None] when [s] holds other markup or is not well-formed. [skip]
    counts the characters of the construct just recognised that are
    still to be passed over. *)
Fixpoint text_value (m : mode) (skip : nat) (s : string) : option string :=
  match s with
  | EmptyString => match m with CharData => Some "" | InCDATA => None end
  | String c r =>
      match skip with
      | S k => text_value m k r
      | O =>
          match m with
          | InCDATA =>
              if prefix "]]>" s then text_value CharData 2 r
              else option_map (String c) (text_value InCDATA 0 r)
          | CharData =>
              if prefix "<![CDATA[" s then text_value InCDATA 8 r
              else if prefix "&lt;" s
              then option_map (String "<") (text_value CharData 3 r)
              else if prefix "&gt;" s
              then option_map (String ">") (text_value CharData 3 r)
              else if prefix "&amp;" s
              then option_map (String "&") (text_value CharData 4 r)
              else if prefix "&quot;" s
              then option_map (String "034") (text_value CharData 5 r)
              else if prefix "&apos;" s
              then option_map (String "'") (text_value CharData 5 r)
              else if Ascii.eqb c "<" || Ascii.eqb c "&" || prefix "]]>" s
              then None
              else option_map (String c) (text_value CharData 0 r)
          end
      end
  end.

Definition read_text (s : string) : option string := text_value CharData 0 s.

End Xml.

(** * Properties *)

Import Soup Converter.

(** ** Trees: induction, descendants, searches *)

Section PageElement_induction.

Variable P : PageElement -> Prop.
Hypothesis P_Str : forall cls s, P (Str cls s).
Hypothesis P_Tag : forall p n a cs, Forall P cs -> P (Tag p n a cs).

Fixpoint PageElement_nested_ind (e : PageElement) : P e :=
  match e with
  | Str cls s => P_Str cls s
  | Tag p n a cs =>
      P_Tag p n a cs
        ((fix all (l : list PageElement) : Forall P l :=
            match l with
            | [] => Forall_nil P
            | c :: r => Forall_cons c (PageElement_nested_ind c) (all r)
            end) cs)
  end.

End PageElement_induction.

(** [d] lies below [e], at any depth. *)
Inductive descendant_of : PageElement -> PageElement -> Prop :=
| desc_child : forall d p n a cs,
    In d cs -> descendant_of d (Tag p n a cs)
| desc_deeper : forall d c p n a cs,
    In c cs -> descendant_of d c -> descendant_of d (Tag p n a cs).

Lemma In_descendants (d e : PageElement) :
  In d (descendants e) <-> descendant_of d e.
Proof.
  split.
  - revert d. induction e as [cls s | p n a cs IH] using PageElement_nested_ind;
      intros d Hin; simpl in Hin; [contradiction|].
    apply in_flat_map in Hin. destruct Hin as [c [Hc Hd]].
    destruct Hd as [<- | Hd].
    + now apply desc_child.
    + apply desc_deeper with c; [assumption|].
      rewrite Forall_forall in IH. now apply IH.
  - induction 1 as [d p n a cs Hin | d c p n a cs Hin Hd IH]; simpl;
      apply in_flat_map.
    + exists d. split; [assumption | now left].
    + exists c. split; [assumption | now right].
Qed.

(** The number of tags called [want] below [e]. *)
Fixpoint count_tags (want : string) (e : PageElement) : nat :=
  match e with
  | Str _ _ => 0
  | Tag _ _ _ cs =>
      list_sum (map (fun c => (if name_is want c then 1 else 0)
                              + count_tags want c) cs)
  end.

Lemma length_find_all (want : string) (e : PageElement) :
  List.length (find_all want e) = count_tags want e.
Proof.
  unfold find_all.
  induction e as [cls s | p n a cs IH] using PageElement_nested_ind;
    [reflexivity|].
  simpl. induction cs as [| c r IHr]; [reflexivity|].
  inversion IH as [| ? ? Hc Hr]; subst.
  cbn [flat_map map list_sum filter app].
  destruct (name_is want c); cbn [List.length];
    rewrite filter_app, length_app, (IHr Hr), <- Hc; simpl; lia.
Qed.

(** What [List.find] returns: the first element that passes the test. *)
Lemma list_find_first {A : Type} (f : A -> bool) (l : list A) :
  match List.find f l with
  | Some x => exists l1 l2, l = (l1 ++ x :: l2)%list /\ f x = true
                            /\ forall y, In y l1 -> f y = false
  | None => forall y, In y l -> f y = false
  end.
Proof.
  induction l as [| a r IH]; simpl.
  - intros y [].
  - destruct (f a) eqn:Ha.
    + exists [], r. repeat split; [assumption | intros y []].
    + destruct (List.find f r) as [x|].
      * destruct IH as [l1 [l2 [-> [Hx Hl1]]]].
        exists (a :: l1), l2. repeat split; [assumption|].
        intros y [<- | Hy]; [assumption | now apply Hl1].
      * intros y [<- | Hy]; [assumption | now apply IH].
Qed.

(** A wanted name without a colon is compared with the tag's own name,
    whatever the tag's prefix. *)
Lemma append_colon_neq (a b want : string) :
  PyStr.contains_colon want = false -> ((a ++ ":" ++ b) =? want) = false.
Proof.
  revert want. induction a as [| c a IH]; intros want Hw;
    (destruct want as [| w want]; [reflexivity|]);
    cbn [PyStr.contains_colon] in Hw;
    apply orb_false_iff in Hw as [Hw1 Hw2];
    cbn [String.append String.eqb].
  - now rewrite Ascii.eqb_sym, Hw1.
  - destruct (Ascii.eqb c w); [now apply IH | reflexivity].
Qed.

Lemma name_matches_local (want : string) (e : PageElement) :
  PyStr.contains_colon want = false -> name_matches want e = name_is want e.
Proof.
  intros Hw. destruct e as [cls s | p n a cs]; [reflexivity|].
  cbn [name_matches name_is]. destruct p as [px|]; [| apply orb_false_r].
  rewrite (append_colon_neq px n want Hw), andb_false_r. apply orb_false_r.
Qed.

(** ** The loop over the entries *)

Definition title_part (entry : PageElement) : list PageElement :=
  match find "title" entry with
  | Some t => [text_tag "title" (get_text_strip t)]
  | None => []
  end.

Definition link_part (entry : PageElement) : list PageElement :=
  match find_attr "link" "rel" "alternate" entry with
  | Some l => if has_attr "href" l then [text_tag "link" (attr "href" l)] else []
  | None => []
  end.

Definition pubdate_part (entry : PageElement) : list PageElement :=
  match date_str entry with
  | Some d =>
      if PyStr.truthy d then
        match Dates.rfc_822_date d with
        | Some r => [text_tag "pubDate" r]
        | None => []
        end
      else []
  | None => []
  end.

Definition content_part (entry : PageElement) : list PageElement :=
  match found_string (find "content" entry) with
  | Some raw => [text_tag "content:encoded" (cdata_str raw)]
  | None => []
  end.

Lemma convert_entry_parts (entry : PageElement) :
  convert_entry entry =
  Tag None "item" []
      (title_part entry ++ link_part entry ++ pubdate_part entry
       ++ content_part entry)%list.
Proof.
  unfold convert_entry, title_part, link_part, pubdate_part, content_part.
  destruct (find "title" entry);
    destruct (find_attr "link" "rel" "alternate" entry) as [l|];
    try destruct (has_attr "href" l);
    destruct (date_str entry) as [d|];
    try destruct (PyStr.truthy d);
    try destruct (Dates.rfc_822_date d);
    destruct (found_string (find "content" entry));
    reflexivity.
Qed.

Lemma convert_entries_fold (entries : list PageElement) :
  forall p n a cs k,
    fold_left (fun st entry =>
                 let '(channel, count_items) := st in
                 (append (convert_entry entry) channel, S count_items))
              entries (Tag p n a cs, k)
    = (Tag p n a (cs ++ map convert_entry entries)%list,
       k + List.length entries).
Proof.
  induction entries as [| e r IH]; intros p n a cs k; simpl.
  - now rewrite app_nil_r, Nat.add_0_r.
  - rewrite IH, <- app_assoc. simpl. f_equal. lia.
Qed.

Lemma build_rss_eq (atom_soup : PageElement) :
  build_rss atom_soup =
  (Output.BeautifulSoup
     [Tag None "rss"
          [("version", "2.0"); ("xmlns:content", content_namespace)]
          [Tag None "channel" []
               ([text_tag "title" (title_value atom_soup);
                 text_tag "link" (link_value atom_soup);
                 text_tag "description" (desc_value atom_soup)]
                ++ map convert_entry (find_all "entry" atom_soup))%list]],
   List.length (find_all "entry" atom_soup)).
Proof.
  unfold build_rss, convert_entries. simpl.
  now rewrite convert_entries_fold.
Qed.

Lemma item_is_item (entry : PageElement) :
  name_is "item" (convert_entry entry) = true
  /\ filter (name_is "item") (descendants (convert_entry entry)) = [].
Proof.
  rewrite convert_entry_parts.
  unfold title_part, link_part, pubdate_part, content_part.
  destruct (find "title" entry);
    destruct (find_attr "link" "rel" "alternate" entry) as [l|];
    try destruct (has_attr "href" l);
    destruct (date_str entry) as [d|];
    try destruct (PyStr.truthy d);
    try destruct (Dates.rfc_822_date d);
    destruct (found_string (find "content" entry));
    split; reflexivity.
Qed.

Lemma find_all_items (entries : list PageElement) :
  filter (name_is "item")
         (flat_map (fun c => c :: descendants c) (map convert_entry entries))
  = map convert_entry entries.
Proof.
  induction entries as [| e r IH]; [reflexivity|].
  destruct (item_is_item e) as [Hn Hd].
  simpl. rewrite Hn, filter_app, Hd, IH. reflexivity.
Qed.

Lemma entry_count_found (atom_soup : PageElement) :
  snd (build_rss atom_soup) = List.length (find_all "entry" atom_soup)
  /\ find_all "item" (fst (build_rss atom_soup))
     = map convert_entry (find_all "entry" atom_soup).
Proof.
  rewrite build_rss_eq. split; [reflexivity|].
  unfold find_all at 1. simpl. rewrite !app_nil_r. apply find_all_items.
Qed.

(** C1. For every Atom input with N [entry] elements, the RSS document
    has exactly N [item] elements, the i-th item is the conversion of
    the i-th entry in document order, and the reported count is N. *)
Theorem entry_count_preserved (atom_soup : PageElement) :
  let N := count_tags "entry" atom_soup in
  let rss_soup := fst (build_rss atom_soup) in
  let count_items := snd (build_rss atom_soup) in
  count_tags "item" rss_soup = N
  /\ find_all "item" rss_soup
     = map convert_entry (find_all "entry" atom_soup)
  /\ count_items = N.
Proof.
  destruct (entry_count_found atom_soup) as [Hn H].
  cbv zeta. repeat split.
  - rewrite <- !length_find_all, H. apply length_map.
  - exact H.
  - rewrite Hn. apply length_find_all.
Qed.

(** ** Searches return the first match in document order *)

(** [r] is what a search of the descendants of [e] for the first node
    passing [f] must give: the first such node in document order, at
    whatever depth, or nothing when no node below [e] passes. *)
Definition first_match (f : PageElement -> bool) (e : PageElement)
           (r : option PageElement) : Prop :=
  match r with
  | Some t =>
      descendant_of t e /\ f t = true
      /\ exists before after,
          descendants e = (before ++ t :: after)%list
          /\ forall d, In d before -> f d = false
  | None => forall d, descendant_of d e -> f d = false
  end.

Lemma list_find_ext {A : Type} (f g : A -> bool) (l : list A) :
  (forall x, f x = g x) -> List.find f l = List.find g l.
Proof.
  intros H. induction l as [| a r IH]; [reflexivity|].
  simpl. now rewrite H, IH.
Qed.

Lemma first_match_find (f : PageElement -> bool) (e : PageElement) :
  first_match f e (List.find f (descendants e)).
Proof.
  unfold first_match.
  pose proof (list_find_first f (descendants e)) as H.
  destruct (List.find f (descendants e)) as [t|].
  - destruct H as [l1 [l2 [Heq [Ht Hl1]]]].
    split; [| split; [assumption | now exists l1, l2]].
    apply In_descendants. rewrite Heq. apply in_elt.
  - intros d Hd. apply H. now apply In_descendants.
Qed.

Lemma find_first_match (want : string) (e : PageElement) :
  PyStr.contains_colon want = false ->
  first_match (name_is want) e (find want e).
Proof.
  intros Hw. unfold find.
  rewrite (list_find_ext _ (name_is want));
    [apply first_match_find | intros x; now apply name_matches_local].
Qed.

Lemma find_attr_first_match (want k v : string) (e : PageElement) :
  PyStr.contains_colon want = false ->
  first_match (fun d => name_is want d && attr_matches k v d) e
              (find_attr want k v e).
Proof.
  intros Hw. unfold find_attr.
  rewrite (list_find_ext _ (fun d => name_is want d && attr_matches k v d));
    [apply first_match_find |].
  intros x. now rewrite name_matches_local.
Qed.

Lemma find_of_first {A : Type} (f : A -> bool) (before after : list A) (t : A) :
  f t = true -> (forall d, In d before -> f d = false) ->
  List.find f (before ++ t :: after) = Some t.
Proof.
  intros Ht. induction before as [| b r IH]; intros Hb; simpl.
  - now rewrite Ht.
  - rewrite (Hb b (or_introl eq_refl)). apply IH.
    intros d Hd. apply Hb. now right.
Qed.

Lemma find_none_of_all {A : Type} (f : A -> bool) (l : list A) :
  (forall d, In d l -> f d = false) -> List.find f l = None.
Proof.
  induction l as [| a r IH]; intros H; [reflexivity|].
  simpl. rewrite (H a (or_introl eq_refl)). apply IH.
  intros d Hd. apply H. now right.
Qed.

(** There is one first match: the description fixes the result. *)
Lemma first_match_unique (f : PageElement -> bool) (e : PageElement)
      (r : option PageElement) :
  first_match f e r -> r = List.find f (descendants e).
Proof.
  destruct r as [t|]; cbn [first_match].
  - intros [_ [Ht [before [after [Heq Hb]]]]].
    rewrite Heq. symmetry. now apply find_of_first.
  - intros H. symmetry. apply find_none_of_all.
    intros d Hd. apply H. now apply In_descendants.
Qed.

Lemma first_match_is_find (want : string) (e : PageElement)
      (r : option PageElement) :
  PyStr.contains_colon want = false ->
  first_match (name_is want) e r -> r = find want e.
Proof.
  intros Hw H. rewrite (first_match_unique _ _ _ H). unfold find.
  apply list_find_ext. intros x. symmetry. now apply name_matches_local.
Qed.

Lemma first_match_is_find_attr (want k v : string) (e : PageElement)
      (r : option PageElement) :
  PyStr.contains_colon want = false ->
  first_match (fun d => name_is want d && attr_matches k v d) e r ->
  r = find_attr want k v e.
Proof.
  intros Hw H. rewrite (first_match_unique _ _ _ H). unfold find_attr.
  apply list_find_ext. intros x. now rewrite name_matches_local.
Qed.

(** The item made from the five elements looked up for an entry, each
    given as found or missing: the steps 1 to 4 of the loop body with
    the lookups taken out. *)
Definition item_of_lookups
           (title link published updated content : option PageElement)
  : PageElement :=
  let date :=
    match found_string published with
    | Some s => Some (PyStr.strip s)
    | None => option_map PyStr.strip (found_string updated)
    end in
  Tag None "item" []
      ((match title with
        | Some t => [text_tag "title" (get_text_strip t)]
        | None => []
        end)
       ++ (match link with
           | Some l =>
               if has_attr "href" l then [text_tag "link" (attr "href" l)]
               else []
           | None => []
           end)
       ++ (match date with
           | Some d =>
               if PyStr.truthy d then
                 match Dates.rfc_822_date d with
                 | Some r => [text_tag "pubDate" r]
                 | None => []
                 end
               else []
           | None => []
           end)
       ++ (match found_string content with
           | Some raw => [text_tag "content:encoded" (cdata_str raw)]
           | None => []
           end))%list.

(** C10. The item of an entry is made from the first element named
    title, the first link with rel="alternate", the first published,
    the first updated and the first content among all the descendants
    of the entry, in document order and at any depth, whatever the
    namespace prefix of the element; a lookup finds nothing only when
    no descendant at any depth matches. *)
Theorem entry_lookups_first_descendant
        (entry : PageElement)
        (title link published updated content : option PageElement) :
  first_match (name_is "title") entry title ->
  first_match (fun d => name_is "link" d && attr_matches "rel" "alternate" d)
              entry link ->
  first_match (name_is "published") entry published ->
  first_match (name_is "updated") entry updated ->
  first_match (name_is "content") entry content ->
  convert_entry entry
  = item_of_lookups title link published updated content.
Proof.
  intros Ht Hl Hp Hu Hc.
  apply first_match_is_find in Ht, Hp, Hu, Hc; try reflexivity.
  apply first_match_is_find_attr in Hl; [| reflexivity].
  subst. rewrite convert_entry_parts.
  unfold item_of_lookups, title_part, link_part, pubdate_part, content_part,
    date_str.
  destruct (found_string (find "published" entry));
    destruct (found_string (find "updated" entry)); reflexivity.
Qed.

(** A title two levels below the entry and in another namespace comes
    before the entry's own title, and a link of another relation before
    the alternate one, which is itself nested. *)
Definition entry_with_nested_fields : PageElement :=
  Tag None "entry" []
      [Tag None "author" []
           [Tag (Some "a") "title" [] [Str NavigableString "Dr"]];
       Tag None "title" [] [Str NavigableString "Post"];
       Tag None "link" [("rel", "self"); ("href", "http://self.example/")] [];
       Tag None "source" []
           [Tag None "link"
                [("rel", "alternate"); ("href", "http://source.example/")] []];
       Tag None "link"
           [("rel", "alternate"); ("href", "http://post.example/")] []].

Lemma entry_lookups_first_descendant_witness :
  convert_entry entry_with_nested_fields
  = Tag None "item" []
        [Tag None "title" [] [Str NavigableString "Dr"];
         Tag None "link" [] [Str NavigableString "http://source.example/"]].
Proof.
  apply (entry_lookups_first_descendant
           entry_with_nested_fields
           (Some (Tag (Some "a") "title" [] [Str NavigableString "Dr"]))
           (Some (Tag None "link"
                      [("rel", "alternate");
                       ("href", "http://source.example/")] []))
           None None None).
  - exact (first_match_find (name_is "title") entry_with_nested_fields).
  - exact (first_match_find
             (fun d => name_is "link" d && attr_matches "rel" "alternate" d)
             entry_with_nested_fields).
  - exact (first_match_find (name_is "published") entry_with_nested_fields).
  - exact (first_match_find (name_is "updated") entry_with_nested_fields).
  - exact (first_match_find (name_is "content") entry_with_nested_fields).
Defined.

(** A title two levels below the entry, after a direct child of another
    name, is the one the item gets. *)
Example nested_title_found :
  convert_entry
    (Tag None "entry" []
         [Tag None "author" [] [Tag (Some "a") "title" [] [Str NavigableString "Dr"]];
          Tag None "title" [] [Str NavigableString "Post"]])
  = Tag None "item" [] [Tag None "title" [] [Str NavigableString "Dr"]].
Proof. reflexivity. Qed.

(** ** Presence of the children of an item *)

Definition has_child (name : string) (e : PageElement) : bool :=
  existsb (name_is name) (contents e).

Definition is_some {A : Type} (o : option A) : bool :=
  match o with Some _ => true | None => false end.

Ltac item_cases entry :=
  rewrite (convert_entry_parts entry);
  unfold title_part, link_part, pubdate_part, content_part;
  destruct (find "title" entry);
  destruct (find_attr "link" "rel" "alternate" entry) as [?l|];
  try match goal with |- context [has_attr "href" ?l] =>
        destruct (has_attr "href" l) end;
  destruct (date_str entry) as [?d|];
  try match goal with |- context [PyStr.truthy ?d] =>
        destruct (PyStr.truthy d) end;
  try match goal with |- context [Dates.rfc_822_date ?d] =>
        destruct (Dates.rfc_822_date d) end;
  destruct (found_string (find "content" entry)).

Lemma has_title (entry : PageElement) :
  has_child "title" (convert_entry entry) = is_some (find "title" entry).
Proof. item_cases entry; reflexivity. Qed.

Lemma has_link (entry : PageElement) :
  has_child "link" (convert_entry entry)
  = match find_attr "link" "rel" "alternate" entry with
    | Some l => has_attr "href" l
    | None => false
    end.
Proof. item_cases entry; reflexivity. Qed.

Lemma has_pubDate (entry : PageElement) :
  has_child "pubDate" (convert_entry entry)
  = match date_str entry with
    | Some d => PyStr.truthy d && is_some (Dates.rfc_822_date d)
    | None => false
    end.
Proof. item_cases entry; reflexivity. Qed.

Lemma has_content (entry : PageElement) :
  has_child "content:encoded" (convert_entry entry)
  = is_some (found_string (find "content" entry)).
Proof. item_cases entry; reflexivity. Qed.

Lemma truthy_true (s : string) : PyStr.truthy s = true <-> s <> "".
Proof.
  unfold PyStr.truthy. destruct (String.eqb_spec s ""); simpl; split;
    congruence.
Qed.

Lemma found_string_spec (tag : option PageElement) (s : string) :
  found_string tag = Some s
  <-> exists t, tag = Some t /\ string_of t = Some s /\ s <> "".
Proof.
  unfold found_string. split.
  - destruct tag as [t|]; [| discriminate].
    destruct (string_of t) as [s'|] eqn:Hs; [| discriminate].
    destruct (PyStr.truthy s') eqn:Ht; [| discriminate].
    intros [= <-]. exists t. split; [reflexivity | split; [assumption |]].
    now apply truthy_true.
  - intros [t [-> [-> Hs]]]. apply truthy_true in Hs. now rewrite Hs.
Qed.

(** ** The channel's fields *)

Lemma find_none_no_descendant (want : string) (e : PageElement) :
  PyStr.contains_colon want = false ->
  (forall d, descendant_of d e -> name_is want d = false) ->
  find want e = None.
Proof.
  intros Hw H. pose proof (find_first_match want e Hw) as Hf.
  destruct (find want e) as [t|]; [| reflexivity].
  destruct Hf as [Hd [Ht _]]. rewrite (H t Hd) in Ht. discriminate.
Qed.

Lemma find_some_first (want : string) (e t : PageElement)
      (before after : list PageElement) :
  PyStr.contains_colon want = false ->
  descendants e = (before ++ t :: after)%list ->
  name_is want t = true ->
  (forall d, In d before -> name_is want d = false) ->
  find want e = Some t.
Proof.
  intros Hw Heq Ht Hb. unfold find.
  rewrite (list_find_ext _ (name_is want)), Heq;
    [now apply find_of_first | intros x; now apply name_matches_local].
Qed.

Lemma append_empty_r (s : string) : s ++ "" = s.
Proof. induction s as [| c r IH]; simpl; [reflexivity | now rewrite IH]. Qed.

(** [get_text(strip=True)] of a tag that holds one text string. *)
Lemma get_text_strip_single (p : option string) (n : string)
      (a : list (string * string)) (s : string) :
  get_text_strip (Tag p n a [Str NavigableString s]) = PyStr.strip s.
Proof.
  unfold get_text_strip, stripped_strings. simpl.
  unfold PyStr.truthy.
  destruct (String.eqb_spec (PyStr.strip s) "") as [-> | _]; simpl;
    [reflexivity | apply append_empty_r].
Qed.

(** The claim's wording of the channel title and description: the
    default also replaces a text that is empty once stripped. *)
Definition spec_title_value (atom_soup : PageElement) : string :=
  match find "title" atom_soup with
  | Some t => if PyStr.truthy (get_text_strip t) then get_text_strip t
              else default_title
  | None => default_title
  end.

Definition spec_desc_value (atom_soup : PageElement) : string :=
  match find "subtitle" atom_soup with
  | Some t => if PyStr.truthy (get_text_strip t) then get_text_strip t
              else default_description
  | None => default_description
  end.

(** A feed whose title is an empty element and whose subtitle holds
    white space only. *)
Definition feed_with_empty_title : PageElement :=
  Output.BeautifulSoup
    [Tag None "feed" []
         [Tag None "title" [] [];
          Tag None "subtitle" [] [Str NavigableString "  "]]].

(** C4, as stated, fails: with a [title] element whose stripped text is
    empty the channel title is the empty string, not the default, and
    likewise for the description. *)
Lemma channel_defaults_counterexample :
  find "title" feed_with_empty_title = Some (Tag None "title" [] [])
  /\ title_value feed_with_empty_title = ""
  /\ spec_title_value feed_with_empty_title = "Atom to RSS Feed"
  /\ title_value feed_with_empty_title
     <> spec_title_value feed_with_empty_title
  /\ desc_value feed_with_empty_title = ""
  /\ desc_value feed_with_empty_title
     <> spec_desc_value feed_with_empty_title.
Proof. repeat split; try reflexivity; discriminate. Qed.

(** C4, amended. The channel title is the stripped text of the first
    [title] element below the root (for an element holding one text
    string, that string stripped) and is "Atom to RSS Feed" when there
    is no [title] element; the description is obtained in the same way
    from [subtitle], with "Converted from Atom feed"; the link is
    "http://example.com" when no [link] element with [rel="alternate"]
    and an [href] exists. *)
Theorem channel_metadata (atom_soup : PageElement) :
  ((forall d, descendant_of d atom_soup -> name_is "title" d = false) ->
   title_value atom_soup = default_title)
  /\ (forall before t after,
         descendants atom_soup = (before ++ t :: after)%list ->
         name_is "title" t = true ->
         (forall d, In d before -> name_is "title" d = false) ->
         title_value atom_soup = get_text_strip t)
  /\ ((forall d, descendant_of d atom_soup -> name_is "subtitle" d = false) ->
      desc_value atom_soup = default_description)
  /\ (forall before t after,
         descendants atom_soup = (before ++ t :: after)%list ->
         name_is "subtitle" t = true ->
         (forall d, In d before -> name_is "subtitle" d = false) ->
         desc_value atom_soup = get_text_strip t)
  /\ ((forall d, descendant_of d atom_soup ->
                 name_is "link" d && attr_matches "rel" "alternate" d
                 && has_attr "href" d = false) ->
      link_value atom_soup = default_link)
  /\ (forall p n a s,
         get_text_strip (Tag p n a [Str NavigableString s]) = PyStr.strip s).
Proof.
  repeat split.
  - intros H. unfold title_value.
    now rewrite (find_none_no_descendant "title" atom_soup eq_refl H).
  - intros before t after Heq Ht Hb. unfold title_value.
    now rewrite (find_some_first "title" atom_soup t before after eq_refl Heq Ht Hb).
  - intros H. unfold desc_value.
    now rewrite (find_none_no_descendant "subtitle" atom_soup eq_refl H).
  - intros before t after Heq Ht Hb. unfold desc_value.
    now rewrite (find_some_first "subtitle" atom_soup t before after eq_refl Heq Ht Hb).
  - intros H. unfold link_value.
    pose proof (find_attr_first_match "link" "rel" "alternate" atom_soup eq_refl)
      as Hf.
    destruct (find_attr "link" "rel" "alternate" atom_soup) as [l|];
      [| reflexivity].
    destruct Hf as [Hd [Hl _]]. specialize (H l Hd).
    rewrite Hl in H. simpl in H. now rewrite H.
  - intros. apply get_text_strip_single.
Qed.

(** ** The date string of an entry *)

(** The claim's wording: the published text when it is not empty once
    stripped, otherwise the updated text. *)
Definition stripped_text (tag : option PageElement) : option string :=
  match tag with
  | Some t =>
      match string_of t with
      | Some s => if PyStr.truthy (PyStr.strip s) then Some (PyStr.strip s)
                  else None
      | None => None
      end
  | None => None
  end.

Definition spec_date_str (entry : PageElement) : option string :=
  match stripped_text (find "published" entry) with
  | Some d => Some d
  | None => stripped_text (find "updated" entry)
  end.

(** An entry whose [published] holds one space and whose [updated] holds
    a date. *)
Definition entry_with_blank_published : PageElement :=
  Tag None "entry" []
      [Tag None "published" [] [Str NavigableString " "];
       Tag None "updated" [] [Str NavigableString "2020-01-01T00:00:00Z"]].

(** C6, as stated, fails: a [published] text that is empty only once
    stripped is still selected, the [updated] text is not consulted and
    the item gets no [pubDate]. *)
Lemma date_fallback_counterexample :
  spec_date_str entry_with_blank_published = Some "2020-01-01T00:00:00Z"
  /\ Dates.rfc_822_date "2020-01-01T00:00:00Z"
     = Some "Wed, 01 Jan 2020 00:00:00 +0000"
  /\ date_str entry_with_blank_published = Some ""
  /\ date_str entry_with_blank_published
     <> spec_date_str entry_with_blank_published
  /\ convert_entry entry_with_blank_published = Tag None "item" [] [].
Proof. repeat split; try reflexivity; discriminate. Qed.

(** C6, amended. The date string is the stripped [.string] of the
    [published] element when that element exists and its [.string] is
    present and not empty before stripping; otherwise it is the
    stripped [.string] of [updated] under the same condition; when no
    date string is selected or the selected one is empty, the item has
    no [pubDate], and a [pubDate] that is emitted renders the selected
    string. *)
Theorem date_selection (entry : PageElement) :
  (forall t s, find "published" entry = Some t -> string_of t = Some s ->
               s <> "" -> date_str entry = Some (PyStr.strip s))
  /\ (found_string (find "published" entry) = None ->
      forall t s, find "updated" entry = Some t -> string_of t = Some s ->
                  s <> "" -> date_str entry = Some (PyStr.strip s))
  /\ (found_string (find "published" entry) = None ->
      found_string (find "updated" entry) = None ->
      date_str entry = None)
  /\ (date_str entry = None \/ date_str entry = Some "" ->
      has_child "pubDate" (convert_entry entry) = false)
  /\ (forall r, In (text_tag "pubDate" r) (contents (convert_entry entry)) ->
                exists d, date_str entry = Some d /\ d <> ""
                          /\ Dates.rfc_822_date d = Some r).
Proof.
  repeat split.
  - intros t s Ht Hs Hne. unfold date_str.
    assert (H : found_string (find "published" entry) = Some s)
      by (apply found_string_spec; now exists t).
    now rewrite H.
  - intros Hp t s Ht Hs Hne. unfold date_str. rewrite Hp.
    assert (H : found_string (find "updated" entry) = Some s)
      by (apply found_string_spec; now exists t).
    now rewrite H.
  - intros Hp Hu. unfold date_str. now rewrite Hp, Hu.
  - intros [H | H]; rewrite has_pubDate, H; reflexivity.
  - intros r Hin. rewrite convert_entry_parts in Hin.
    unfold title_part, link_part, pubdate_part, content_part in Hin.
    cbn [contents] in Hin.
    repeat (apply in_app_or in Hin; destruct Hin as [Hin | Hin]).
    + destruct (find "title" entry); [| contradiction].
      destruct Hin as [Hin | []]. discriminate.
    + destruct (find_attr "link" "rel" "alternate" entry) as [l|];
        [| contradiction].
      destruct (has_attr "href" l); [| contradiction].
      destruct Hin as [Hin | []]. discriminate.
    + destruct (date_str entry) as [d|]; [| contradiction].
      destruct (PyStr.truthy d) eqn:Hd; [| contradiction].
      destruct (Dates.rfc_822_date d) as [r'|] eqn:Hr; [| contradiction].
      destruct Hin as [Hin | []]. injection Hin as <-.
      exists d. split; [reflexivity | split; [| assumption]].
      now apply truthy_true.
    + destruct (found_string (find "content" entry)); [| contradiction].
      destruct Hin as [Hin | []]. discriminate.
Qed.

(** ** Optional children of an item *)

(** An entry whose [title] is an empty element. *)
Definition entry_with_empty_title : PageElement :=
  Tag None "entry" [] [Tag None "title" [] []].

(** C8, as stated, fails: a [title] element that is present but empty
    gives an item with an empty [title] element. *)
Lemma optional_fields_counterexample :
  find "title" entry_with_empty_title = Some (Tag None "title" [] [])
  /\ get_text_strip (Tag None "title" [] []) = ""
  /\ has_child "title" (convert_entry entry_with_empty_title) = true
  /\ convert_entry entry_with_empty_title
     = Tag None "item" [] [Tag None "title" [] [Str NavigableString ""]].
Proof. repeat split. Qed.

(** C8, amended. The item has a [title] exactly when the entry has a
    [title] element, empty or not; a [link] exactly when the entry's
    first [link] with [rel="alternate"] has an [href], empty or not; a
    [content:encoded] exactly when the [.string] of the entry's
    [content] element is present and not empty. An entry with none of
    the three still gives an [item], which is among the items of the
    document. *)
Theorem optional_fields (entry : PageElement) :
  (has_child "title" (convert_entry entry) = true
   <-> exists t, find "title" entry = Some t)
  /\ (has_child "link" (convert_entry entry) = true
      <-> exists l, find_attr "link" "rel" "alternate" entry = Some l
                    /\ has_attr "href" l = true)
  /\ (has_child "content:encoded" (convert_entry entry) = true
      <-> exists c s, find "content" entry = Some c
                      /\ string_of c = Some s /\ s <> "")
  /\ name_is "item" (convert_entry entry) = true
  /\ (forall atom_soup,
         In entry (find_all "entry" atom_soup) ->
         In (convert_entry entry)
            (find_all "item" (fst (build_rss atom_soup)))).
Proof.
  repeat split.
  - rewrite has_title. destruct (find "title" entry) as [t|];
      [now exists t | discriminate].
  - rewrite has_title. now intros [t ->].
  - rewrite has_link.
    destruct (find_attr "link" "rel" "alternate" entry) as [l|];
      [now exists l | discriminate].
  - rewrite has_link. now intros [l [-> ->]].
  - rewrite has_content.
    destruct (found_string (find "content" entry)) as [s|] eqn:H;
      [| discriminate].
    apply found_string_spec in H. destruct H as [c [Hc [Hs Hne]]].
    now exists c, s.
  - rewrite has_content. intros [c [s [Hc [Hs Hne]]]].
    assert (H : found_string (find "content" entry) = Some s)
      by (apply found_string_spec; now exists c).
    now rewrite H.
  - apply item_is_item.
  - intros atom_soup Hin.
    destruct (entry_count_found atom_soup) as [_ Hitems].
    rewrite Hitems. now apply in_map.
Qed.

(** An entry with no [title], no [link] and no [content]. *)
Example bare_entry_gives_item :
  build_rss (Output.BeautifulSoup [Tag None "feed" [] [Tag None "entry" [] []]])
  = (Output.BeautifulSoup
       [Tag None "rss"
            [("version", "2.0"); ("xmlns:content", content_namespace)]
            [Tag None "channel" []
                 [text_tag "title" default_title;
                  text_tag "link" default_link;
                  text_tag "description" default_description;
                  Tag None "item" [] []]]],
     1).
Proof. reflexivity. Qed.

(** ** The [.string] of the content element *)

(** [e] reduces to the string [s] through a chain of only children. *)
Inductive single_string : PageElement -> string -> Prop :=
| single_str : forall cls s, single_string (Str cls s) s
| single_only_child : forall p n a c s,
    single_string c s -> single_string (Tag p n a [c]) s.

Lemma string_of_spec (e : PageElement) (s : string) :
  string_of e = Some s <-> single_string e s.
Proof.
  split.
  - revert s.
    induction e as [cls s' | p n a cs IH] using PageElement_nested_ind;
      intros s H.
    + injection H as <-. constructor.
    + destruct cs as [| c [| c' r]]; try discriminate.
      constructor. inversion IH; subst. now auto.
  - induction 1 as [cls s | p n a c s _ IH]; [reflexivity | exact IH].
Qed.

Lemma several_children_no_string (p : option string) (n : string)
      (a : list (string * string)) (cs : list PageElement) :
  List.length cs <> 1 -> forall s, ~ single_string (Tag p n a cs) s.
Proof.
  intros Hlen s H. inversion H; subst. now apply Hlen.
Qed.

(** An entry whose [content] has one child element that holds the
    text. *)
Definition entry_with_wrapped_content : PageElement :=
  Tag None "entry" []
      [Tag None "content" [("type", "xhtml")]
           [Tag None "div" [] [Str NavigableString "hello"]]].

(** C9, as stated, fails: this [content] element contains a child
    element, not a text node, and its text is not empty, yet the item
    has a [content:encoded]. *)
Lemma content_omitted_counterexample :
  (exists c child,
      find "content" entry_with_wrapped_content = Some c
      /\ contents c = [child] /\ is_tag child = true
      /\ get_text_strip c = "hello")
  /\ has_child "content:encoded" (convert_entry entry_with_wrapped_content)
     = true
  /\ convert_entry entry_with_wrapped_content
     = Tag None "item" []
           [Tag None "content:encoded" []
                [Str NavigableString "<![CDATA[hello]]>"]].
Proof.
  repeat split.
  exists (Tag None "content" [("type", "xhtml")]
              [Tag None "div" [] [Str NavigableString "hello"]]),
         (Tag None "div" [] [Str NavigableString "hello"]).
  repeat split.
Qed.

(** C9, amended. When the entry's [content] element does not reduce to
    one string through a chain of only children (it has no child or
    several children, or its only child is an element of which the same
    holds), the item has no [content:encoded], whatever the element's
    concatenated text. *)
Theorem content_without_single_string (entry c : PageElement) :
  find "content" entry = Some c ->
  (forall s, ~ single_string c s) ->
  has_child "content:encoded" (convert_entry entry) = false.
Proof.
  intros Hc Hno. rewrite has_content, Hc. unfold found_string.
  destruct (string_of c) as [s|] eqn:Hs; [| reflexivity].
  apply string_of_spec in Hs. now destruct (Hno s).
Qed.

(** An entry whose [content] mixes text and markup. *)
Definition entry_with_mixed_content : PageElement :=
  Tag None "entry" []
      [Tag None "content" []
           [Str NavigableString "Hello ";
            Tag None "b" [] [Str NavigableString "world"]]].

Lemma content_without_single_string_witness :
  get_text_strip
    (Tag None "content" []
         [Str NavigableString "Hello ";
          Tag None "b" [] [Str NavigableString "world"]])
  = "Helloworld"
  /\ has_child "content:encoded" (convert_entry entry_with_mixed_content)
     = false.
Proof.
  split; [reflexivity|].
  apply (content_without_single_string
           entry_with_mixed_content
           (Tag None "content" []
                [Str NavigableString "Hello ";
                 Tag None "b" [] [Str NavigableString "world"]])).
  - reflexivity.
  - intros s H. inversion H.
Defined.

(** ** The run of [process_feed] *)

Import App.

Lemma pubDate_emitted (entry : PageElement) (d r : string) :
  date_str entry = Some d -> d <> "" -> Dates.rfc_822_date d = Some r ->
  In (text_tag "pubDate" r) (contents (convert_entry entry)).
Proof.
  intros Hd Hne Hr. rewrite convert_entry_parts. cbn [contents].
  apply in_or_app; right. apply in_or_app; right. apply in_or_app; left.
  unfold pubdate_part. apply truthy_true in Hne.
  rewrite Hd, Hne, Hr. now left.
Qed.

Section Runs.

Variable read_file : string -> result string.
Variable parse_xml : string -> result PageElement.
Variable write_file : string -> string -> option WriteFailure.

Lemma process_feed_parsed (app : AppState)
      (input_path output_path atom_data : string) (atom_soup : PageElement) :
  selected (input_file_path app) = Some input_path ->
  selected (output_file_path app) = Some output_path ->
  read_file input_path = Ok atom_data ->
  parse_xml atom_data = Ok atom_soup ->
  write_file output_path (Output.prettify (fst (build_rss atom_soup))) = None ->
  process_feed read_file parse_xml write_file app
  = let text := Output.prettify (fst (build_rss atom_soup)) in
    let msg := success_message (snd (build_rss atom_soup)) in
    show (showinfo "Done" msg) (log msg (write output_path text app)).
Proof.
  intros Hi Ho Hr Hp Hw. unfold process_feed.
  rewrite Hi, Ho, Hr, Hp.
  destruct (build_rss atom_soup) as [rss_soup count_items].
  cbn [fst snd] in *. now rewrite Hw.
Qed.

End Runs.

Definition app_ready : AppState :=
  mk_app (Some "feed.xml") (Some "rss.xml") "" [] [].

(** A text that ends inside the [feed] element, which is never closed,
    and what [BeautifulSoup(text, "xml")] gives for it: bs4 runs lxml
    with [recover=True] and closes the elements still open when the
    input ends, so the result is the tree of what was read and no
    exception is raised. *)
Definition unterminated_feed : string :=
  "<feed><entry><title>News</title></entry>".

Definition recovered_feed : PageElement :=
  Output.BeautifulSoup
    [Tag None "feed" []
         [Tag None "entry" []
              [Tag None "title" [] [Str NavigableString "News"]]]].

(** C2. The program makes no check of the text of its own: what happens
    after the file is read is decided by what [BeautifulSoup] does with
    the text. Only when it raises is the message logged and shown as an
    XML parse error and nothing written. When it returns a tree, as it
    does for a text that is not well-formed but can be recovered, the
    run converts the tree, writes the document and reports success. *)
Theorem ill_formed_text_converted
        (read_file : string -> result string)
        (parse_xml : string -> result PageElement)
        (write_file : string -> string -> option WriteFailure)
        (app : AppState) (input_path output_path atom_data : string) :
  selected (input_file_path app) = Some input_path ->
  selected (output_file_path app) = Some output_path ->
  read_file input_path = Ok atom_data ->
  let app' := process_feed read_file parse_xml write_file app in
  (forall message,
      parse_xml atom_data = Raise message ->
      written app' = written app
      /\ log_area app'
         = log_area app ++ ("ERROR parsing XML: " ++ message) ++ Output.newline
      /\ dialogs app'
         = (dialogs app ++ [showerror "XML Parse Error" message])%list)
  /\ (forall atom_soup,
         parse_xml atom_data = Ok atom_soup ->
         write_file output_path (Output.prettify (fst (build_rss atom_soup)))
         = None ->
         written app'
         = (output_path, Output.prettify (fst (build_rss atom_soup)))
             :: written app
         /\ dialogs app'
            = (dialogs app
               ++ [showinfo "Done"
                     (success_message (snd (build_rss atom_soup)))])%list).
Proof.
  intros Hi Ho Hr. cbv zeta. split.
  - intros message Hp. unfold process_feed.
    rewrite Hi, Ho, Hr, Hp. repeat split.
  - intros atom_soup Hp Hw.
    rewrite (process_feed_parsed read_file parse_xml write_file app
               input_path output_path atom_data atom_soup Hi Ho Hr Hp Hw).
    split; reflexivity.
Qed.

Lemma ill_formed_text_converted_witness :
  let app' :=
    process_feed (fun _ => Ok unterminated_feed) (fun _ => Ok recovered_feed)
                 (fun _ _ => None) app_ready in
  written app'
  = [("rss.xml", Output.prettify (fst (build_rss recovered_feed)))]
  /\ dialogs app'
     = [showinfo "Done"
          "Successfully created RSS 2.0 feed with 1 <item> entries."].
Proof.
  exact (proj2 (ill_formed_text_converted
                  (fun _ => Ok unterminated_feed)
                  (fun _ => Ok recovered_feed)
                  (fun _ _ => None) app_ready "feed.xml" "rss.xml"
                  unterminated_feed eq_refl eq_refl eq_refl)
               recovered_feed eq_refl eq_refl).
Defined.

(** C7. When the date string selected for an entry is not empty and
    cannot be parsed, that entry's item has no [pubDate] and is still
    among the items; the items of the other entries keep their
    [pubDate]; the run completes, writes the document and reports the
    number of all entries. *)
Theorem unparseable_date_tolerated
        (read_file : string -> result string)
        (parse_xml : string -> result PageElement)
        (write_file : string -> string -> option WriteFailure)
        (app : AppState) (input_path output_path atom_data : string)
        (atom_soup entry : PageElement) (d : string) :
  selected (input_file_path app) = Some input_path ->
  selected (output_file_path app) = Some output_path ->
  read_file input_path = Ok atom_data ->
  parse_xml atom_data = Ok atom_soup ->
  write_file output_path (Output.prettify (fst (build_rss atom_soup))) = None ->
  In entry (find_all "entry" atom_soup) ->
  date_str entry = Some d -> d <> "" -> Dates.rfc_822_date d = None ->
  let app' := process_feed read_file parse_xml write_file app in
  let N := count_tags "entry" atom_soup in
  has_child "pubDate" (convert_entry entry) = false
  /\ In (convert_entry entry) (find_all "item" (fst (build_rss atom_soup)))
  /\ (forall e' d' r,
         In e' (find_all "entry" atom_soup) ->
         date_str e' = Some d' -> d' <> "" ->
         Dates.rfc_822_date d' = Some r ->
         In (text_tag "pubDate" r) (contents (convert_entry e')))
  /\ snd (build_rss atom_soup) = N
  /\ count_tags "item" (fst (build_rss atom_soup)) = N
  /\ written app'
     = (output_path, Output.prettify (fst (build_rss atom_soup)))
         :: written app
  /\ dialogs app'
     = (dialogs app ++ [showinfo "Done" (success_message N)])%list.
Proof.
  intros Hi Ho Hr Hp Hw Hin Hd Hne Hnone. cbv zeta.
  destruct (entry_count_found atom_soup) as [Hn Hitems].
  assert (HN : snd (build_rss atom_soup) = count_tags "entry" atom_soup)
    by (rewrite Hn; apply length_find_all).
  rewrite (process_feed_parsed read_file parse_xml write_file app
             input_path output_path atom_data atom_soup Hi Ho Hr Hp Hw).
  cbv zeta. rewrite HN. repeat split.
  - rewrite has_pubDate, Hd, Hnone. apply andb_false_r.
  - rewrite Hitems. now apply in_map.
  - intros e' d' r _ Hd' Hne' Hr'. now apply pubDate_emitted with d'.
  - rewrite <- length_find_all, Hitems, length_map. apply length_find_all.
Qed.

(** A feed with an entry dated "not-a-date" and an entry with a proper
    date. *)
Definition feed_with_bad_date : PageElement :=
  Output.BeautifulSoup
    [Tag None "feed" []
         [Tag None "entry" []
              [Tag None "published" [] [Str NavigableString "not-a-date"]];
          Tag None "entry" []
              [Tag None "published" []
                   [Str NavigableString "2017-06-28T08:15:00.001-07:00"]]]].

Lemma unparseable_date_tolerated_witness :
  let entry :=
    Tag None "entry" []
        [Tag None "published" [] [Str NavigableString "not-a-date"]] in
  let app' :=
    process_feed (fun _ => Ok "<feed/>") (fun _ => Ok feed_with_bad_date)
                 (fun _ _ => None) app_ready in
  has_child "pubDate" (convert_entry entry) = false
  /\ In (convert_entry entry)
        (find_all "item" (fst (build_rss feed_with_bad_date)))
  /\ (forall e' d' r,
         In e' (find_all "entry" feed_with_bad_date) ->
         date_str e' = Some d' -> d' <> "" ->
         Dates.rfc_822_date d' = Some r ->
         In (text_tag "pubDate" r) (contents (convert_entry e')))
  /\ snd (build_rss feed_with_bad_date) = 2
  /\ count_tags "item" (fst (build_rss feed_with_bad_date)) = 2
  /\ written app'
     = ("rss.xml", Output.prettify (fst (build_rss feed_with_bad_date)))
         :: written app_ready
  /\ dialogs app'
     = (dialogs app_ready
        ++ [showinfo "Done"
              "Successfully created RSS 2.0 feed with 2 <item> entries."])%list.
Proof.
  apply (unparseable_date_tolerated
           (fun _ => Ok "<feed/>") (fun _ => Ok feed_with_bad_date)
           (fun _ _ => None) app_ready "feed.xml" "rss.xml" "<feed/>"
           feed_with_bad_date
           (Tag None "entry" []
                [Tag None "published" [] [Str NavigableString "not-a-date"]])
           "not-a-date");
    try reflexivity.
  - simpl. now left.
  - discriminate.
Defined.

(** ** The text of [content:encoded] *)

Lemma append_assoc (a b c : string) : (a ++ b) ++ c = a ++ (b ++ c).
Proof. induction a as [| x a IH]; simpl; [reflexivity | now rewrite IH]. Qed.

Lemma length_append (a b : string) :
  String.length (a ++ b) = String.length a + String.length b.
Proof. induction a as [| x a IH]; simpl; [reflexivity | now rewrite IH]. Qed.

(** The three equations of the escape. *)
Lemma safe_html_nil : safe_html "" = "".
Proof. reflexivity. Qed.

Lemma safe_html_terminator (r : string) :
  safe_html ("]]>" ++ r) = "]]]]><![CDATA[>" ++ safe_html r.
Proof. destruct r; reflexivity. Qed.

Lemma safe_html_other (c : ascii) (r : string) :
  prefix "]]>" (String c r) = false ->
  safe_html (String c r) = String c (safe_html r).
Proof.
  intros H. unfold safe_html, PyStr.replace.
  cbn [PyStr.replace_scan]. now rewrite H.
Qed.

Lemma prefix_empty (s : string) : prefix "" s = true.
Proof. now destruct s. Qed.

Lemma prefix_of_empty (a : ascii) (s : string) : prefix (String a s) "" = false.
Proof. reflexivity. Qed.

Lemma prefix_cons (a c : ascii) (s1 s2 : string) :
  prefix (String a s1) (String c s2) = Ascii.eqb a c && prefix s1 s2.
Proof.
  cbn [prefix]. destruct (Ascii.ascii_dec a c) as [-> | Hne].
  - now rewrite Ascii.eqb_refl.
  - apply Ascii.eqb_neq in Hne. now rewrite Hne.
Qed.

Ltac prefix_norm :=
  repeat first [ rewrite prefix_cons | rewrite prefix_of_empty
               | rewrite prefix_empty ].

Lemma prefix_terminator (s : string) :
  prefix "]]>" s = true -> exists r, s = "]]>" ++ r.
Proof.
  destruct s as [| c1 [| c2 [| c3 r]]]; prefix_norm;
    rewrite ?andb_false_r; try discriminate.
  intros H. apply andb_prop in H as [H1 H].
  apply andb_prop in H as [H2 H]. apply andb_prop in H as [H3 _].
  apply Ascii.eqb_eq in H1, H2, H3. subst. now exists r.
Qed.

(** Induction along the scan of the escape. *)
Lemma safe_html_ind (P : string -> Prop) :
  P "" ->
  (forall r, P r -> P ("]]>" ++ r)) ->
  (forall c r, prefix "]]>" (String c r) = false -> P r -> P (String c r)) ->
  forall s, P s.
Proof.
  intros Hnil Hterm Hother s.
  assert (H : forall n s, String.length s <= n -> P s).
  { clear s. induction n as [| n IH]; intros s Hlen.
    - destruct s; [exact Hnil | simpl in Hlen; lia].
    - destruct s as [| c r]; [exact Hnil|].
      destruct (prefix "]]>" (String c r)) eqn:Hp.
      + apply prefix_terminator in Hp. destruct Hp as [r' Hr'].
        rewrite Hr'. apply Hterm, IH.
        rewrite Hr' in Hlen. simpl in Hlen. lia.
      + apply Hother; [assumption|]. apply IH. simpl in Hlen. lia. }
  now apply (H (String.length s)).
Qed.

Lemma safe_html_length (s : string) :
  String.length s <= String.length (safe_html s).
Proof.
  induction s as [| r IH | c r Hp IH] using safe_html_ind.
  - reflexivity.
  - rewrite safe_html_terminator, !length_append. simpl. lia.
  - rewrite (safe_html_other c r Hp). simpl. lia.
Qed.

Lemma cdata_str_differs (raw_html : string) : cdata_str raw_html <> raw_html.
Proof.
  intros H. apply (f_equal String.length) in H.
  unfold cdata_str in H. rewrite !length_append in H.
  pose proof (safe_html_length raw_html). simpl in H. lia.
Qed.

(** After a character that does not start the terminator in the source,
    the escaped text does not show a terminator either. *)
Lemma no_terminator_after_escape (c : ascii) (r : string) :
  prefix "]]>" (String c r) = false ->
  prefix "]]>" (String c (safe_html r ++ "]]>")) = false.
Proof.
  intros Hp. rewrite prefix_cons in *.
  destruct (Ascii.eqb "]" c) eqn:Hc; [| reflexivity].
  cbn [andb] in *.
  destruct r as [| c2 r2]; [reflexivity|].
  destruct (prefix "]]>" (String c2 r2)) eqn:Hp2.
  - apply prefix_terminator in Hp2. destruct Hp2 as [r' ->].
    now rewrite safe_html_terminator.
  - rewrite (safe_html_other c2 r2 Hp2).
    cbn [String.append]. rewrite prefix_cons in *.
    destruct (Ascii.eqb "]" c2) eqn:Hc2; [| reflexivity].
    cbn [andb] in *.
    destruct r2 as [| c3 r3]; [reflexivity|].
    destruct (prefix "]]>" (String c3 r3)) eqn:Hp3.
    + apply prefix_terminator in Hp3. destruct Hp3 as [r' ->].
      now rewrite safe_html_terminator.
    + rewrite (safe_html_other c3 r3 Hp3).
      cbn [String.append]. rewrite prefix_cons in *.
      rewrite prefix_empty in *. rewrite andb_true_r in *. exact Hp.
Qed.

Lemma escaped_section_reads_back (s : string) :
  Xml.text_value Xml.InCDATA 0 (safe_html s ++ "]]>") = Some s.
Proof.
  induction s as [| r IH | c r Hp IH] using safe_html_ind.
  - reflexivity.
  - rewrite safe_html_terminator, append_assoc.
    cbn -[safe_html]. rewrite IH. reflexivity.
  - rewrite (safe_html_other c r Hp).
    change (String c (safe_html r) ++ "]]>")
      with (String c (safe_html r ++ "]]>")).
    cbn [Xml.text_value].
    rewrite (no_terminator_after_escape c r Hp), IH. reflexivity.
Qed.

(** Had the text been written out as it is, an XML reader would give
    back the content text. *)
Lemma cdata_str_reads_back (raw_html : string) :
  Xml.read_text (cdata_str raw_html) = Some raw_html.
Proof.
  unfold Xml.read_text, cdata_str.
  cbn -[safe_html]. rewrite prefix_empty. apply escaped_section_reads_back.
Qed.

(** What the formatter does to the text, and what a reader makes of
    it. *)
Lemma substitute_xml_other (c : ascii) (r : string) :
  Ascii.eqb c "&" = false -> Ascii.eqb c "<" = false ->
  Ascii.eqb c ">" = false ->
  Output.substitute_xml (String c r) = String c (Output.substitute_xml r).
Proof.
  intros Ha Hl Hg. cbn [Output.substitute_xml]. now rewrite Ha, Hl, Hg.
Qed.

Ltac special_cases c :=
  destruct (Ascii.eqb_spec c "&") as [-> | ?Ha];
  [| destruct (Ascii.eqb_spec c "<") as [-> | ?Hl];
     [| destruct (Ascii.eqb_spec c ">") as [-> | ?Hg] ] ].

Ltac use_neq :=
  repeat match goal with
         | H : ?a <> ?b |- _ =>
             let E := fresh "E" in
             assert (E : Ascii.eqb a b = false) by (now apply Ascii.eqb_neq);
             let E' := fresh "E" in
             assert (E' : Ascii.eqb b a = false)
               by (rewrite Ascii.eqb_sym; exact E);
             clear H
         end.

Ltac rewrite_eqb :=
  repeat match goal with
         | H : Ascii.eqb _ _ = false |- _ => progress rewrite H
         end.

Lemma substituted_not_gt (s : string) :
  prefix ">" (Output.substitute_xml s) = false.
Proof.
  destruct s as [| c r]; [reflexivity|].
  special_cases c; try reflexivity.
  use_neq. rewrite substitute_xml_other by assumption.
  rewrite prefix_cons. now rewrite_eqb.
Qed.

Lemma substituted_not_terminator (s : string) :
  prefix "]>" (Output.substitute_xml s) = false.
Proof.
  destruct s as [| c r]; [reflexivity|].
  special_cases c; try reflexivity.
  use_neq. rewrite substitute_xml_other by assumption.
  rewrite prefix_cons, substituted_not_gt. apply andb_false_r.
Qed.

Lemma substitute_xml_reads_back (s : string) :
  Xml.read_text (Output.substitute_xml s) = Some s.
Proof.
  unfold Xml.read_text. induction s as [| c r IH]; [reflexivity|].
  special_cases c.
  - change (Output.substitute_xml (String "&" r))
      with ("&amp;" ++ Output.substitute_xml r).
    cbn -[Output.substitute_xml]. rewrite ?prefix_empty. now rewrite IH.
  - change (Output.substitute_xml (String "<" r))
      with ("&lt;" ++ Output.substitute_xml r).
    cbn -[Output.substitute_xml]. rewrite ?prefix_empty. now rewrite IH.
  - change (Output.substitute_xml (String ">" r))
      with ("&gt;" ++ Output.substitute_xml r).
    cbn -[Output.substitute_xml]. rewrite ?prefix_empty. now rewrite IH.
  - use_neq. rewrite substitute_xml_other by assumption.
    cbn [Xml.text_value]. rewrite !prefix_cons.
    rewrite substituted_not_terminator. rewrite_eqb.
    rewrite ?andb_false_r. cbn [andb orb].
    now rewrite IH.
Qed.

Lemma content_emitted (entry : PageElement) (raw_html : string) :
  found_string (find "content" entry) = Some raw_html ->
  In (text_tag "content:encoded" (cdata_str raw_html))
     (contents (convert_entry entry)).
Proof.
  intros H. rewrite convert_entry_parts. cbn [contents].
  do 3 (apply in_or_app; right).
  unfold content_part. rewrite H. now left.
Qed.

Lemma decode_text_tag (name v : string) :
  Output.hidden name = false ->
  Output.decode None false (text_tag name v)
  = "<" ++ name ++ ">" ++ Output.substitute_xml v ++ "</" ++ name ++ ">".
Proof.
  intros Hh. unfold text_tag, new_tag, set_string.
  cbn [Output.decode Output.output_ready]. rewrite Hh.
  cbn [Output.attribute_string Output.sorted_attrs fold_right map PyStr.join
       andb String.append].
  now rewrite !append_empty_r.
Qed.

(** C3. The string given to [content:encoded] is the CDATA wrapping of
    the escaped content, and that string read as XML gives back the
    content exactly. It is stored as an ordinary string, though: the
    document carries it with its angle brackets and ampersands replaced
    by entity references, so what a reader of the document gets back is
    the wrapping text itself, never the content. *)
Theorem content_encoded_is_escaped_text (entry : PageElement)
        (raw_html : string) :
  found_string (find "content" entry) = Some raw_html ->
  let element := text_tag "content:encoded" (cdata_str raw_html) in
  In element (contents (convert_entry entry))
  /\ Xml.read_text (cdata_str raw_html) = Some raw_html
  /\ Output.decode None false element
     = "<content:encoded>" ++ Output.substitute_xml (cdata_str raw_html)
       ++ "</content:encoded>"
  /\ Xml.read_text (Output.substitute_xml (cdata_str raw_html))
     = Some (cdata_str raw_html)
  /\ cdata_str raw_html <> raw_html.
Proof.
  intros H. cbv zeta. repeat split.
  - now apply content_emitted.
  - apply cdata_str_reads_back.
  - now rewrite decode_text_tag.
  - apply substitute_xml_reads_back.
  - apply cdata_str_differs.
Qed.

(** An entry whose content holds the terminator. *)
Definition entry_with_terminator : PageElement :=
  Tag None "entry" [] [Tag None "content" [] [Str NavigableString "a]]>b"]].

Lemma content_encoded_is_escaped_text_witness :
  let element := text_tag "content:encoded" "<![CDATA[a]]]]><![CDATA[>b]]>" in
  In element (contents (convert_entry entry_with_terminator))
  /\ Xml.read_text "<![CDATA[a]]]]><![CDATA[>b]]>" = Some "a]]>b"
  /\ Output.decode None false element
     = "<content:encoded>&lt;![CDATA[a]]]]&gt;&lt;![CDATA[&gt;b]]&gt;</content:encoded>"
  /\ Xml.read_text "&lt;![CDATA[a]]]]&gt;&lt;![CDATA[&gt;b]]&gt;"
     = Some "<![CDATA[a]]]]><![CDATA[>b]]>"
  /\ "<![CDATA[a]]]]><![CDATA[>b]]>" <> "a]]>b".
Proof.
  apply (content_encoded_is_escaped_text entry_with_terminator "a]]>b").
  reflexivity.
Defined.

(** ** Dates: from an ISO 8601 text to the RFC 822 text *)

Import Dates.
Local Open Scope Z_scope.

(** A check that holds on every number below [k] holds on a number in
    that range. *)
Lemma range_check (f : Z -> bool) (k : Z) :
  forallb f (map Z.of_nat (seq 0 (Z.to_nat k))) = true ->
  forall n, 0 <= n < k -> f n = true.
Proof.
  intros H n Hn. rewrite forallb_forall in H. apply H.
  replace n with (Z.of_nat (Z.to_nat n)) by lia.
  apply in_map, in_seq. lia.
Qed.

(** ['%02d' % n] is two digits that [int] reads back as [n]. *)
Definition two_digit_check (n : Z) : bool :=
  match fmt_d 2 n with
  | String a (String b EmptyString) =>
      is_digit a && is_digit b
      && match py_int (String a (String b EmptyString)) with
         | Some v => v =? n
         | None => false
         end
  | _ => false
  end.

Definition four_digit_check (n : Z) : bool :=
  match fmt_d 4 n with
  | String a (String b (String c (String d EmptyString))) =>
      is_digit a && is_digit b && is_digit c && is_digit d
      && match py_int (String a (String b (String c (String d EmptyString))))
         with
         | Some v => v =? n
         | None => false
         end
  | _ => false
  end.

Lemma two_digits (n : Z) :
  0 <= n <= 99 ->
  exists a b,
    fmt_d 2 n = String a (String b EmptyString)
    /\ is_digit a = true /\ is_digit b = true
    /\ py_int (String a (String b EmptyString)) = Some n.
Proof.
  intros Hn.
  assert (H : two_digit_check n = true).
  { apply (range_check two_digit_check 100); [vm_compute; reflexivity | lia]. }
  unfold two_digit_check in H.
  destruct (fmt_d 2 n) as [| a [| b [| ? ?]]]; try discriminate.
  apply andb_prop in H as [H Hv]. apply andb_prop in H as [Ha Hb].
  destruct (py_int (String a (String b EmptyString))) as [v|] eqn:Hi;
    [| discriminate].
  apply Z.eqb_eq in Hv. subst v. now exists a, b.
Qed.

Lemma four_digits (n : Z) :
  0 <= n <= 9999 ->
  exists a b c d,
    fmt_d 4 n = String a (String b (String c (String d EmptyString)))
    /\ is_digit a = true /\ is_digit b = true
    /\ is_digit c = true /\ is_digit d = true
    /\ py_int (String a (String b (String c (String d EmptyString))))
       = Some n.
Proof.
  intros Hn.
  assert (H : four_digit_check n = true).
  { apply (range_check four_digit_check 10000);
      [vm_compute; reflexivity | lia]. }
  unfold four_digit_check in H.
  destruct (fmt_d 4 n) as [| a [| b [| c [| d [| ? ?]]]]]; try discriminate.
  apply andb_prop in H as [H Hv]. apply andb_prop in H as [H Hd].
  apply andb_prop in H as [H Hc]. apply andb_prop in H as [Ha Hb].
  destruct (py_int (String a (String b (String c (String d EmptyString)))))
    as [v|] eqn:Hi; [| discriminate].
  apply Z.eqb_eq in Hv. subst v. now exists a, b, c, d.
Qed.

(** A digit is an ASCII character and none of the separators. *)
Lemma digit_facts (a : ascii) :
  is_digit a = true ->
  is_ascii a = true
  /\ (String.eqb (String a "") "-" || String.eqb (String a "") "+"
      || String.eqb (String a "") "Z" || String.eqb (String a "") "z") = false.
Proof.
  destruct a as [[] [] [] [] [] [] [] []]; intros H; try discriminate H;
    split; reflexivity.
Qed.

(** The date part [YYYY-MM-DD], followed by anything that is not
    empty. *)
Lemma parse_isodate_extended
      (y1 y2 y3 y4 m1 m2 d1 d2 : ascii) (Y M D : Z) (c : ascii) (rest : string) :
  py_int (String y1 (String y2 (String y3 (String y4 "")))) = Some Y ->
  py_int (String m1 (String m2 "")) = Some M ->
  py_int (String d1 (String d2 "")) = Some D ->
  parse_isodate
    (String y1 (String y2 (String y3 (String y4 (String "-"
       (String m1 (String m2 (String "-"
          (String d1 (String d2 (String c rest)))))))))))
  = Some (Y, M, D, 10%nat).
Proof.
  intros HY HM HD. unfold parse_isodate, parse_isodate_common.
  cbn [String.length Nat.ltb Nat.leb PyStr.slice substring Nat.sub Nat.add].
  rewrite HY. cbn [DATE_SEP String.eqb Ascii.eqb Bool.eqb andb negb].
  cbn [String.length Nat.ltb Nat.leb PyStr.slice substring Nat.sub Nat.add].
  rewrite HM.
  cbn [String.length Nat.ltb Nat.leb PyStr.slice substring Nat.sub Nat.add
       DATE_SEP String.eqb Ascii.eqb Bool.eqb andb negb].
  rewrite HD. reflexivity.
Qed.











Lemma all_ascii_app (a b : string) :
  all_ascii (a ++ b) = all_ascii a && all_ascii b.
Proof.
  induction a as [| c a IH]; [reflexivity|].
  cbn [String.append all_ascii]. now rewrite IH, andb_assoc.
Qed.

(** The offset text [+hh:mm] or [-hh:mm]. *)
Definition sign_char (negative : bool) : ascii :=
  if negative then "-"%char else "+"%char.

Definition offset_seconds (negative : bool) (oh om : Z) : Z :=
  if (oh =? 0) && (om =? 0) then 0
  else (if negative then -1 else 1) * (oh * 60 + om) * 60.


(** One turn of the loop of [_parse_isotime]. *)
Lemma isotime_loop_step (fuel : nat) (timestr : string) (comp : nat)
      (has_sep : bool) (c : time_components) (pos : nat) :
  isotime_loop (S fuel) timestr comp has_sep c pos
  = let len_str := String.length timestr in
    if Nat.leb len_str pos then Some (c, pos) else
    let ch := PyStr.slice pos (pos + 1) timestr in
    if String.eqb ch "-" || String.eqb ch "+"
       || String.eqb ch "Z" || String.eqb ch "z"
    then
      tzv <- parse_tzstr (PyStr.slice_from pos timestr) ;;
      let '(hh, mm, ss, us, _) := c in
      Some ((hh, mm, ss, us, Some tzv), len_str)
    else
      '(has_sep, pos) <-
         (if Nat.eqb comp 1 && String.eqb ch TIME_SEP
          then Some (true, (pos + 1)%nat)
          else if Nat.eqb comp 2 && has_sep
          then (if String.eqb ch TIME_SEP
                then Some (has_sep, (pos + 1)%nat) else None)
          else Some (has_sep, pos)) ;;
      if Nat.ltb comp 3 then
        v <- py_int (PyStr.slice pos (pos + 2) timestr) ;;
        isotime_loop fuel timestr (S comp) has_sep
                     (set_component comp v c) (pos + 2)%nat
      else if Nat.eqb comp 3 then
        match match_fraction (PyStr.slice_from pos timestr) with
        | None => isotime_loop fuel timestr (S comp) has_sep c pos
        | Some frac =>
            let us_str := PyStr.slice 0 6 frac in
            us <- py_int us_str ;;
            isotime_loop fuel timestr (S comp) has_sep
              (set_component comp
                 (us * 10 ^ (6 - Z.of_nat (String.length us_str))) c)
              (pos + 1 + String.length frac)%nat
        end
      else isotime_loop fuel timestr (S comp) has_sep c pos.
Proof. reflexivity. Qed.



(** The zone text of an offset of [oh] hours and [om] minutes. *)
Lemma strftime_z_offset (negative : bool) (oh om : Z) :
  0 <= oh <= 23 -> 0 <= om <= 59 ->
  strftime_z (offset_seconds negative oh om)
  = Some (String (sign_char (negative && negb ((oh =? 0) && (om =? 0))))
                 (fmt_d 2 oh ++ fmt_d 2 om)).
Proof.
  intros Hoh Hom. unfold offset_seconds.
  destruct ((oh =? 0) && (om =? 0)) eqn:Hz.
  - apply andb_prop in Hz as [H1 H2]. apply Z.eqb_eq in H1, H2. subst.
    rewrite andb_false_r. reflexivity.
  - assert (Hnz : 0 < (oh * 60 + om) * 60).
    { apply andb_false_iff in Hz as [H | H]; apply Z.eqb_neq in H; lia. }
    set (a := (oh * 60 + om) * 60) in *.
    assert (Ha : a < 86400) by (unfold a; lia).
    assert (Hh : a / 3600 = oh)
      by (symmetry; apply (Z.div_unique a 3600 oh (om * 60)); unfold a; lia).
    assert (Hm : a mod 3600 / 60 = om).
    { replace (a mod 3600) with (om * 60)
        by (apply (Z.mod_unique a 3600 oh (om * 60)); unfold a; lia).
      apply Z.div_mul. lia. }
    assert (Hs : a mod 60 = 0) by (unfold a; apply Z.mod_mul; lia).
    unfold strftime_z. rewrite andb_true_r.
    destruct negative.
    + replace (-1 * (oh * 60 + om) * 60) with (- a) by (unfold a; ring).
      replace (Z.abs (- a)) with a by lia.
      replace ((-86400 <? - a) && (- a <? 86400)) with true
        by (symmetry; apply andb_true_iff; split; apply Z.ltb_lt; lia).
      replace (- a <? 0) with true by (symmetry; apply Z.ltb_lt; lia).
      rewrite Hh, Hm, Hs. cbn [negb Z.eqb sign_char String.append].
      now rewrite append_empty_r.
    + replace (1 * (oh * 60 + om) * 60) with a by (unfold a; ring).
      replace (Z.abs a) with a by lia.
      replace ((-86400 <? a) && (a <? 86400)) with true
        by (symmetry; apply andb_true_iff; split; apply Z.ltb_lt; lia).
      replace (a <? 0) with false by (symmetry; apply Z.ltb_ge; lia).
      rewrite Hh, Hm, Hs. cbn [negb Z.eqb sign_char String.append].
      now rewrite append_empty_r.
Qed.

(** ** The RFC 822 text of a date and time *)




(** The day of the week of a date of the Gregorian calendar; 0 is
    Sunday. *)
Definition month_shift (m : Z) : Z :=
  match m with
  | 1 => 0 | 2 => 3 | 3 => 2 | 4 => 5 | 5 => 0 | 6 => 3
  | 7 => 5 | 8 => 1 | 9 => 4 | 10 => 6 | 11 => 2 | 12 => 4
  | _ => 0
  end.

Definition day_of_week (y m d : Z) : Z :=
  let y' := if m <? 3 then y - 1 else y in
  (y' + y' / 4 - y' / 100 + y' / 400 + month_shift m + d) mod 7.

Definition rfc822_day (y m d : Z) : string :=
  nth (Z.to_nat (day_of_week y m d))
      ["Sun"; "Mon"; "Tue"; "Wed"; "Thu"; "Fri"; "Sat"] "".

Definition rfc822_month (m : Z) : string :=
  nth (Z.to_nat (m - 1))
      ["Jan"; "Feb"; "Mar"; "Apr"; "May"; "Jun";
       "Jul"; "Aug"; "Sep"; "Oct"; "Nov"; "Dec"] "".



(** Days of the week that are on record. *)
Example known_days_of_week :
  rfc822_day 1970 1 1 = "Thu" /\ rfc822_day 2000 1 1 = "Sat"
  /\ rfc822_day 2000 2 29 = "Tue" /\ rfc822_day 2017 6 28 = "Wed"
  /\ rfc822_day 2023 12 31 = "Sun" /\ rfc822_day 2024 3 1 = "Fri"
  /\ rfc822_day 1999 12 31 = "Fri" /\ rfc822_day 1900 3 1 = "Thu".
Proof. repeat split. Qed.

(** *** The code's rendering is that text *)



Lemma weekday_day_of_week (y m d : Z) :
  1 <= m <= 12 -> weekday y m d = (day_of_week y m d + 6) mod 7.
Proof.
  intros Hm.
  assert (H : m = 1 \/ m = 2 \/ m = 3 \/ m = 4 \/ m = 5 \/ m = 6 \/ m = 7
              \/ m = 8 \/ m = 9 \/ m = 10 \/ m = 11 \/ m = 12) by lia.
  unfold weekday, ymd2ord, days_before_year, days_before_month, day_of_week,
    is_leap.
  repeat (destruct H as [H | H]); subst m;
    cbn [Z.ltb Z.compare Pos.compare Pos.compare_cont andb DAYS_BEFORE_MONTH
         month_shift];
    repeat match goal with
           | |- context [?a =? ?b] => destruct (Z.eqb_spec a b)
           end;
    cbn [andb orb negb];
    Z.to_euclidean_division_equations; lia.
Qed.

Lemma day_name_weekday (y m d : Z) :
  1 <= m <= 12 -> day_name (weekday y m d) = rfc822_day y m d.
Proof.
  intros Hm. rewrite (weekday_day_of_week y m d Hm). unfold rfc822_day.
  assert (Hw : 0 <= day_of_week y m d < 7)
    by (unfold day_of_week; apply Z.mod_pos_bound; lia).
  assert (H : day_of_week y m d = 0 \/ day_of_week y m d = 1
              \/ day_of_week y m d = 2 \/ day_of_week y m d = 3
              \/ day_of_week y m d = 4 \/ day_of_week y m d = 5
              \/ day_of_week y m d = 6) by lia.
  repeat (destruct H as [H | H]); rewrite H; reflexivity.
Qed.

Lemma month_name_rfc822 (m : Z) :
  1 <= m <= 12 -> month_name m = rfc822_month m.
Proof.
  intros Hm.
  assert (H : m = 1 \/ m = 2 \/ m = 3 \/ m = 4 \/ m = 5 \/ m = 6 \/ m = 7
              \/ m = 8 \/ m = 9 \/ m = 10 \/ m = 11 \/ m = 12) by lia.
  repeat (destruct H as [H | H]); subst m; reflexivity.
Qed.


(** *** What [isoparse] can return *)






















(** *** Texts with a fraction of a second and an offset *)






(** Other forms that can be parsed: a basic form with a comma and an
    offset of hours only, a day of the year, a week date, midnight
    written 24:00. *)
Example other_forms_rendered :
  rfc_822_date "20240229T235959,5+01" = Some "Thu, 29 Feb 2024 23:59:59 +0100"
  /\ rfc_822_date "2021-060" = Some "Mon, 01 Mar 2021 00:00:00 -0000"
  /\ rfc_822_date "2020-W01-7" = Some "Sun, 05 Jan 2020 00:00:00 -0000"
  /\ rfc_822_date "2019-12-31T24:00Z" = Some "Wed, 01 Jan 2020 00:00:00 +0000".
Proof. repeat split. Qed.

(** An entry with no [published] and an [updated] of
    2020-01-01T00:00:00Z gets its [pubDate] from [updated]; an entry
    with neither gets none. *)
Example updated_used_when_no_published :
  convert_entry
    (Tag None "entry" []
         [Tag None "updated" [] [Str NavigableString "2020-01-01T00:00:00Z"]])
  = Tag None "item" []
        [Tag None "pubDate" []
             [Str NavigableString "Wed, 01 Jan 2020 00:00:00 +0000"]].
Proof. reflexivity. Qed.

Example no_date_no_pubDate :
  convert_entry (Tag None "entry" [] [Tag None "title" [] [Str NavigableString "T"]])
  = Tag None "item" [] [Tag None "title" [] [Str NavigableString "T"]].
Proof. reflexivity. Qed.

(** * Further properties of the application *)

Local Close Scope Z_scope.

Section RunProperties.

Variable read_file : string -> result string.
Variable parse_xml : string -> result PageElement.
Variable write_file : string -> string -> option WriteFailure.

Let run := process_feed read_file parse_xml write_file.

(** X1. Whatever happens, one run shows exactly one dialog after those
    already shown, only adds text at the end of the log pane and leaves
    the two selected paths as they were. *)
Theorem process_feed_shows_one_dialog (app : AppState) :
  (exists box, dialogs (run app) = (dialogs app ++ [box])%list)
  /\ (exists text, log_area (run app) = log_area app ++ text)
  /\ input_file_path (run app) = input_file_path app
  /\ output_file_path (run app) = output_file_path app.
Proof.
  unfold run, process_feed.
  destruct (selected (input_file_path app)) as [input_path|].
  2: { repeat split; [eexists; reflexivity | exists ""; symmetry; apply append_empty_r]. }
  destruct (selected (output_file_path app)) as [output_path|].
  2: { repeat split; [eexists; reflexivity | exists ""; symmetry; apply append_empty_r]. }
  destruct (read_file input_path) as [atom_data | e].
  2: { repeat split; eexists; reflexivity. }
  destruct (parse_xml atom_data) as [atom_soup | e].
  2: { repeat split; eexists; reflexivity. }
  destruct (build_rss atom_soup) as [rss_soup count_items].
  destruct (write_file output_path (Output.prettify rss_soup))
    as [[e [kept|]]|];
    repeat split; eexists; reflexivity.
Qed.

(** X2. A run ends either with the "Done" dialog, having written the
    whole document at the selected output path, or with an error
    dialog. In the second case no file is touched, except when the
    failure is one of writing: then the output file, and no other, may
    be left holding what was written before the failure. *)
Theorem file_written_only_on_success (app : AppState) :
  (exists title message,
      dialogs (run app) = (dialogs app ++ [showerror title message])%list
      /\ (written (run app) = written app
          \/ exists output_path kept,
              title = "Write Error"
              /\ selected (output_file_path app) = Some output_path
              /\ written (run app) = (output_path, kept) :: written app))
  \/ (exists output_path atom_soup,
         selected (output_file_path app) = Some output_path
         /\ written (run app)
            = (output_path, Output.prettify (fst (build_rss atom_soup)))
                :: written app
         /\ dialogs (run app)
            = (dialogs app
               ++ [showinfo "Done"
                     (success_message (snd (build_rss atom_soup)))])%list).
Proof.
  unfold run, process_feed.
  destruct (selected (input_file_path app)) as [input_path|];
    [| left; eexists; eexists; split; [reflexivity | now left]].
  destruct (selected (output_file_path app)) as [output_path|];
    [| left; eexists; eexists; split; [reflexivity | now left]].
  destruct (read_file input_path) as [atom_data | e];
    [| left; eexists; eexists; split; [reflexivity | now left]].
  destruct (parse_xml atom_data) as [atom_soup | e];
    [| left; eexists; eexists; split; [reflexivity | now left]].
  destruct (build_rss atom_soup) as [rss_soup count_items] eqn:Hb.
  destruct (write_file output_path (Output.prettify rss_soup))
    as [[e [kept|]]|].
  - left. eexists; eexists; split; [reflexivity|].
    right. exists output_path, kept. repeat split.
  - left. eexists; eexists; split; [reflexivity | now left].
  - right. exists output_path, atom_soup. rewrite Hb. repeat split.
Qed.

(** X3. The paths are checked before anything is read: with no input
    path (never selected, or empty) the only effect is the dialog "No
    input file selected.", also when the output path is missing too;
    with an input path and no output path the only effect is the dialog
    "No output file selected.". *)
Theorem missing_path_reported (app : AppState) :
  (input_file_path app = None \/ input_file_path app = Some "" ->
   run app = show (showerror "Error" "No input file selected.") app)
  /\ (forall input_path,
         input_file_path app = Some input_path -> input_path <> "" ->
         output_file_path app = None \/ output_file_path app = Some "" ->
         run app = show (showerror "Error" "No output file selected.") app).
Proof.
  split.
  - intros [H | H]; unfold run, process_feed; now rewrite H.
  - intros input_path Hi Hne Ho. unfold run, process_feed.
    rewrite Hi. cbn [selected]. apply truthy_true in Hne. rewrite Hne.
    destruct Ho as [H | H]; now rewrite H.
Qed.

End RunProperties.

(** X4. When the input file cannot be read, the error is logged and
    shown, nothing is written, and neither the parser nor the writer
    has any part in the outcome. *)
Theorem read_error_aborts
        (read_file : string -> result string)
        (parse_xml parse_xml' : string -> result PageElement)
        (write_file write_file' : string -> string -> option WriteFailure)
        (app : AppState) (input_path output_path e : string) :
  selected (input_file_path app) = Some input_path ->
  selected (output_file_path app) = Some output_path ->
  read_file input_path = Raise e ->
  process_feed read_file parse_xml write_file app
  = show (showerror "File Read Error" e)
         (log ("ERROR reading input file: " ++ e) app)
  /\ written (process_feed read_file parse_xml write_file app) = written app
  /\ process_feed read_file parse_xml write_file app
     = process_feed read_file parse_xml' write_file' app.
Proof.
  intros Hi Ho Hr. unfold process_feed. rewrite Hi, Ho, Hr. repeat split.
Qed.

Lemma read_error_aborts_witness :
  let read := fun _ : string => @Raise string "No such file or directory" in
  let parse := fun _ : string => Ok (Output.BeautifulSoup []) in
  let parse' := fun _ : string => @Raise PageElement "never asked" in
  process_feed read parse (fun _ _ => None) app_ready
  = show (showerror "File Read Error" "No such file or directory")
         (log ("ERROR reading input file: " ++ "No such file or directory")
              app_ready)
  /\ written (process_feed read parse (fun _ _ => None) app_ready)
     = written app_ready
  /\ process_feed read parse (fun _ _ => None) app_ready
     = process_feed read parse' (fun _ _ => Some (mk_failure "disk full" (Some ""))) app_ready.
Proof.
  cbv zeta.
  apply (read_error_aborts
           (fun _ => Raise "No such file or directory")
           (fun _ => Ok (Output.BeautifulSoup []))
           (fun _ => Raise "never asked")
           (fun _ _ => None) (fun _ _ => Some (mk_failure "disk full" (Some "")))
           app_ready "feed.xml" "rss.xml" "No such file or directory");
    reflexivity.
Defined.



(** X6. When reading, parsing and writing all succeed, the file written
    at the output path is the rendering of the converted document, and
    the message logged and shown reports the number of [entry]
    elements of the input, which is the number of [item] elements of
    the document. *)
Theorem successful_run_reports_count
        (read_file : string -> result string)
        (parse_xml : string -> result PageElement)
        (write_file : string -> string -> option WriteFailure)
        (app : AppState) (input_path output_path atom_data : string)
        (atom_soup : PageElement) :
  selected (input_file_path app) = Some input_path ->
  selected (output_file_path app) = Some output_path ->
  read_file input_path = Ok atom_data ->
  parse_xml atom_data = Ok atom_soup ->
  write_file output_path (Output.prettify (fst (build_rss atom_soup))) = None ->
  let app' := process_feed read_file parse_xml write_file app in
  let rss_soup := fst (build_rss atom_soup) in
  let N := count_tags "entry" atom_soup in
  count_tags "item" rss_soup = N
  /\ written app' = (output_path, Output.prettify rss_soup) :: written app
  /\ log_area app' = log_area app ++ success_message N ++ Output.newline
  /\ dialogs app' = (dialogs app ++ [showinfo "Done" (success_message N)])%list.
Proof.
  intros Hi Ho Hr Hp Hw. cbv zeta.
  destruct (entry_count_found atom_soup) as [Hn Hitems].
  assert (HN : snd (build_rss atom_soup) = count_tags "entry" atom_soup)
    by (rewrite Hn; apply length_find_all).
  rewrite (process_feed_parsed read_file parse_xml write_file app
             input_path output_path atom_data atom_soup Hi Ho Hr Hp Hw).
  cbv zeta. rewrite HN. repeat split.
  rewrite <- length_find_all, Hitems, length_map. apply length_find_all.
Qed.

Lemma successful_run_reports_count_witness :
  let app' :=
    process_feed (fun _ => Ok "<feed/>") (fun _ => Ok feed_with_bad_date)
                 (fun _ _ => None) app_ready in
  let rss_soup := fst (build_rss feed_with_bad_date) in
  count_tags "item" rss_soup = 2
  /\ written app' = ("rss.xml", Output.prettify rss_soup) :: written app_ready
  /\ log_area app'
     = log_area app_ready ++ success_message 2 ++ Output.newline
  /\ dialogs app'
     = (dialogs app_ready ++ [showinfo "Done" (success_message 2)])%list.
Proof.
  apply (successful_run_reports_count
           (fun _ => Ok "<feed/>") (fun _ => Ok feed_with_bad_date)
           (fun _ _ => None) app_ready "feed.xml" "rss.xml" "<feed/>"
           feed_with_bad_date);
    reflexivity.
Defined.

(** X7. Cancelling a file dialog changes nothing. After an input and an
    output file have been chosen, a run reads the chosen input file and
    writes to the chosen output file, and the log pane holds the two
    selections followed by the success message. *)
Theorem selected_files_are_used
        (read_file : string -> result string)
        (parse_xml : string -> result PageElement)
        (write_file : string -> string -> option WriteFailure)
        (app : AppState) (input_path output_path atom_data : string)
        (atom_soup : PageElement) :
  input_path <> "" -> output_path <> "" ->
  read_file input_path = Ok atom_data ->
  parse_xml atom_data = Ok atom_soup ->
  write_file output_path (Output.prettify (fst (build_rss atom_soup))) = None ->
  let chosen := select_output_file output_path
                  (select_input_file input_path app) in
  let app' := process_feed read_file parse_xml write_file chosen in
  select_input_file "" app = app
  /\ select_output_file "" app = app
  /\ written app'
     = (output_path, Output.prettify (fst (build_rss atom_soup)))
         :: written app
  /\ log_area app'
     = ((log_area app ++ ("Selected input file: " ++ input_path)
         ++ Output.newline)
        ++ ("Selected output file: " ++ output_path) ++ Output.newline)
       ++ success_message (snd (build_rss atom_soup)) ++ Output.newline.
Proof.
  intros Hi Ho Hr Hp Hw. cbv zeta.
  apply truthy_true in Hi, Ho.
  assert (Hc : select_output_file output_path
                 (select_input_file input_path app)
               = mk_app (Some input_path) (Some output_path)
                        ((log_area app ++ ("Selected input file: " ++ input_path)
                          ++ Output.newline)
                         ++ ("Selected output file: " ++ output_path)
                         ++ Output.newline)
                        (dialogs app) (written app)).
  { unfold select_output_file, select_input_file. now rewrite Hi, Ho. }
  rewrite Hc.
  rewrite (process_feed_parsed read_file parse_xml write_file _
             input_path output_path atom_data atom_soup);
    [| cbn [selected input_file_path]; now rewrite Hi
     | cbn [selected output_file_path]; now rewrite Ho
     | assumption | assumption | assumption].
  repeat split.
Qed.

Lemma selected_files_are_used_witness :
  let read := fun path : string =>
                if path =? "atom.xml" then Ok "<feed/>"
                else Raise "No such file or directory" in
  let write := fun (path _ : string) =>
                 if path =? "out.xml" then None
                 else Some (mk_failure "Permission denied" None) in
  let chosen := select_output_file "out.xml" (select_input_file "atom.xml" init) in
  let app' := process_feed read (fun _ => Ok feed_with_bad_date) write chosen in
  select_input_file "" init = init
  /\ select_output_file "" init = init
  /\ written app'
     = ("out.xml", Output.prettify (fst (build_rss feed_with_bad_date)))
         :: written init
  /\ log_area app'
     = ((log_area init ++ ("Selected input file: " ++ "atom.xml")
         ++ Output.newline)
        ++ ("Selected output file: " ++ "out.xml") ++ Output.newline)
       ++ success_message (snd (build_rss feed_with_bad_date))
       ++ Output.newline.
Proof.
  apply (selected_files_are_used
           (fun path : string =>
              if path =? "atom.xml" then Ok "<feed/>"
              else Raise "No such file or directory")
           (fun _ => Ok feed_with_bad_date)
           (fun (path _ : string) =>
              if path =? "out.xml" then None
              else Some (mk_failure "Permission denied" None))
           init "atom.xml" "out.xml" "<feed/>" feed_with_bad_date);
    try reflexivity; discriminate.
Defined.

(** * Further properties of the conversion *)

Definition tag_name (e : PageElement) : string :=
  match e with Tag _ n _ _ => n | Str _ _ => "" end.

(** X8. The children of an item are new elements holding one string
    each, and their names are, in this order and each at most once,
    among title, link, pubDate and content:encoded, whatever the order
    of the elements in the entry. *)
Theorem item_children_ordered (entry : PageElement) :
  Forall (fun child => exists v, child = text_tag (tag_name child) v)
         (contents (convert_entry entry))
  /\ exists t l p c : bool,
      map tag_name (contents (convert_entry entry))
      = ((if t then ["title"] else []) ++ (if l then ["link"] else [])
         ++ (if p then ["pubDate"] else [])
         ++ (if c then ["content:encoded"] else []))%list.
Proof.
  rewrite convert_entry_parts. cbn [contents].
  unfold title_part, link_part, pubdate_part, content_part. split.
  - repeat (apply Forall_app; split);
      repeat match goal with
             | |- Forall _ (match ?x with _ => _ end) => destruct x
             | |- Forall _ (if ?x then _ else _) => destruct x
             end;
      constructor; try constructor; eexists; reflexivity.
  - exists (is_some (find "title" entry)),
           (match find_attr "link" "rel" "alternate" entry with
            | Some l => has_attr "href" l
            | None => false
            end),
           (match date_str entry with
            | Some d => PyStr.truthy d && is_some (rfc_822_date d)
            | None => false
            end),
           (is_some (found_string (find "content" entry))).
    destruct (find "title" entry);
      destruct (find_attr "link" "rel" "alternate" entry) as [l|];
      try destruct (has_attr "href" l);
      destruct (date_str entry) as [d|];
      try destruct (PyStr.truthy d);
      try destruct (rfc_822_date d);
      destruct (found_string (find "content" entry));
      reflexivity.
Qed.

(** X9. The document always has one [rss] root with version 2.0 and
    the content namespace, holding one [channel] whose children are
    title, link and description, in this order, followed by one item
    per entry; with no entry the channel holds just the three. *)
Theorem document_layout (atom_soup : PageElement) :
  fst (build_rss atom_soup)
  = Output.BeautifulSoup
      [Tag None "rss"
           [("version", "2.0");
            ("xmlns:content", "http://purl.org/rss/1.0/modules/content/")]
           [Tag None "channel" []
                (text_tag "title" (title_value atom_soup)
                 :: text_tag "link" (link_value atom_soup)
                 :: text_tag "description" (desc_value atom_soup)
                 :: map convert_entry (find_all "entry" atom_soup))]]
  /\ (find_all "entry" atom_soup = [] ->
      map tag_name
          (descendants (fst (build_rss atom_soup)))
      = ["rss"; "channel"; "title"; ""; "link"; ""; "description"; ""]).
Proof.
  rewrite build_rss_eq. split; [reflexivity|].
  intros H. rewrite H. reflexivity.
Qed.

(** Whether the terminator of a CDATA section occurs in a text. *)
Fixpoint has_terminator (s : string) : bool :=
  match s with
  | EmptyString => false
  | String c r => prefix "]]>" s || has_terminator r
  end.

(** X10. A content text in which the terminator does not occur is put
    between the CDATA marks unchanged. *)
Theorem content_without_terminator_unchanged (raw_html : string) :
  has_terminator raw_html = false ->
  cdata_str raw_html = "<![CDATA[" ++ raw_html ++ "]]>".
Proof.
  intros H. unfold cdata_str. do 2 f_equal.
  induction raw_html as [| c r IH]; [reflexivity|].
  cbn [has_terminator] in H. apply orb_false_iff in H as [Hp Hr].
  rewrite (safe_html_other c r Hp). now rewrite (IH Hr).
Qed.

Lemma content_without_terminator_unchanged_witness :
  cdata_str "<p>a]] > b</p>" = "<![CDATA[" ++ "<p>a]] > b</p>" ++ "]]>".
Proof.
  apply (content_without_terminator_unchanged "<p>a]] > b</p>").
  reflexivity.
Defined.

(** ** Stripped text *)

Definition starts_clean (s : string) : bool :=
  match s with
  | EmptyString => true
  | String c _ => negb (PyStr.isspace c)
  end.

Lemma lstrip_starts_clean (s : string) : starts_clean (PyStr.lstrip s) = true.
Proof.
  induction s as [| c r IH]; [reflexivity|].
  cbn [PyStr.lstrip]. destruct (PyStr.isspace c) eqn:Hc; [exact IH|].
  cbn [starts_clean]. now rewrite Hc.
Qed.

Lemma starts_clean_lstrip (s : string) :
  starts_clean s = true -> PyStr.lstrip s = s.
Proof.
  destruct s as [| c r]; [reflexivity|].
  cbn [starts_clean PyStr.lstrip]. now destruct (PyStr.isspace c).
Qed.

Lemma rstrip_starts_clean (s : string) :
  starts_clean s = true -> starts_clean (PyStr.rstrip s) = true.
Proof.
  destruct s as [| c r]; [reflexivity|].
  cbn [starts_clean PyStr.rstrip]. intros Hc.
  destruct (PyStr.rstrip r); [| exact Hc].
  destruct (PyStr.isspace c) eqn:E; [discriminate Hc|].
  cbn [starts_clean]. now rewrite E.
Qed.

Lemma rstrip_rstrip (s : string) :
  PyStr.rstrip (PyStr.rstrip s) = PyStr.rstrip s.
Proof.
  induction s as [| c r IH]; [reflexivity|].
  cbn [PyStr.rstrip]. destruct (PyStr.rstrip r) as [| c' r'] eqn:Hr.
  - destruct (PyStr.isspace c) eqn:Hc; [reflexivity|].
    cbn [PyStr.rstrip]. now rewrite Hc.
  - cbn [PyStr.rstrip]. fold PyStr.rstrip.
    change (match PyStr.rstrip (String c' r') with
            | EmptyString =>
                if PyStr.isspace c then EmptyString else String c EmptyString
            | String a s0 => String c (String a s0)
            end = String c (String c' r')).
    now rewrite IH.
Qed.

Lemma rstrip_append (a b : string) :
  b <> "" -> PyStr.rstrip b = b -> PyStr.rstrip (a ++ b) = a ++ b.
Proof.
  intros Hne Hb. induction a as [| c a IH]; [exact Hb|].
  cbn [String.append PyStr.rstrip]. rewrite IH.
  destruct (a ++ b) eqn:Hab; [| reflexivity].
  destruct a; [cbn in Hab; congruence | discriminate].
Qed.

(** A text with no white space at either end. *)
Definition trimmed (s : string) : Prop :=
  starts_clean s = true /\ PyStr.rstrip s = s.

Lemma strip_trimmed (s : string) : trimmed (PyStr.strip s).
Proof.
  unfold trimmed, PyStr.strip. split.
  - apply rstrip_starts_clean, lstrip_starts_clean.
  - apply rstrip_rstrip.
Qed.

Lemma trimmed_strip (s : string) : trimmed s -> PyStr.strip s = s.
Proof.
  intros [Hs He]. unfold PyStr.strip. now rewrite (starts_clean_lstrip s Hs).
Qed.

Lemma join_trimmed (pieces : list string) :
  Forall (fun p => p <> "" /\ trimmed p) pieces ->
  trimmed (PyStr.join pieces).
Proof.
  induction 1 as [| p ps [Hne [Hs He]] _ IH]; [now split|].
  cbn [PyStr.join fold_right]. fold (PyStr.join ps).
  destruct IH as [IHs IHe]. split.
  - destruct p; [congruence | exact Hs].
  - destruct (PyStr.join ps) eqn:Hj.
    + now rewrite append_empty_r.
    + apply rstrip_append; [discriminate | exact IHe].
Qed.

Lemma get_text_strip_trimmed (e : PageElement) : trimmed (get_text_strip e).
Proof.
  unfold get_text_strip, stripped_strings. apply join_trimmed.
  induction (descendants e) as [| d r IH]; [constructor|].
  cbn [flat_map]. apply Forall_app. split; [| exact IH].
  destruct (text_string d) as [s|]; [| constructor].
  cbv zeta. destruct (PyStr.truthy (PyStr.strip s)) eqn:Ht; [| constructor].
  constructor; [| constructor].
  split; [now apply truthy_true | apply strip_trimmed].
Qed.

(** X11. The channel title and description, the title of every item and
    the date string selected for an entry have no white space at either
    end: stripping them again changes nothing. *)
Theorem emitted_text_is_stripped (atom_soup : PageElement) :
  PyStr.strip (title_value atom_soup) = title_value atom_soup
  /\ PyStr.strip (desc_value atom_soup) = desc_value atom_soup
  /\ (forall entry v,
         In (text_tag "title" v) (contents (convert_entry entry)) ->
         PyStr.strip v = v)
  /\ (forall entry d, date_str entry = Some d -> PyStr.strip d = d).
Proof.
  repeat split.
  - unfold title_value. destruct (find "title" atom_soup);
      [apply trimmed_strip, get_text_strip_trimmed | reflexivity].
  - unfold desc_value. destruct (find "subtitle" atom_soup);
      [apply trimmed_strip, get_text_strip_trimmed | reflexivity].
  - intros entry v Hin. rewrite convert_entry_parts in Hin.
    cbn [contents] in Hin.
    unfold title_part, link_part, pubdate_part, content_part in Hin.
    repeat (apply in_app_or in Hin; destruct Hin as [Hin | Hin]).
    + destruct (find "title" entry) as [t|]; [| contradiction].
      destruct Hin as [Hin | []]. injection Hin as <-.
      apply trimmed_strip, get_text_strip_trimmed.
    + destruct (find_attr "link" "rel" "alternate" entry) as [l|];
        [| contradiction].
      destruct (has_attr "href" l); [| contradiction].
      destruct Hin as [Hin | []]. discriminate.
    + destruct (date_str entry) as [d|]; [| contradiction].
      destruct (PyStr.truthy d); [| contradiction].
      destruct (rfc_822_date d); [| contradiction].
      destruct Hin as [Hin | []]. discriminate.
    + destruct (found_string (find "content" entry)); [| contradiction].
      destruct Hin as [Hin | []]. discriminate.
  - intros entry d. unfold date_str.
    destruct (found_string (find "published" entry)).
    + intros [= <-]. apply trimmed_strip, strip_trimmed.
    + destruct (found_string (find "updated" entry)); [| discriminate].
      intros [= <-]. apply trimmed_strip, strip_trimmed.
Qed.

(** ** The channel title of a feed without a title of its own *)

(** X12. The search for the channel title covers the whole document:
    when no element before the first entry that has a title is called
    title, the channel title is the title of that entry, the same text
    as the title of the entry's item, and not the default. *)
Theorem feed_title_from_first_entry
        (p : option string) (a : list (string * string))
        (before after : list PageElement) (entry t : PageElement) :
  (forall c, In c before ->
             name_is "title" c = false
             /\ forall d, descendant_of d c -> name_is "title" d = false) ->
  name_is "title" entry = false ->
  find "title" entry = Some t ->
  let atom_soup :=
    Output.BeautifulSoup [Tag p "feed" a (before ++ entry :: after)] in
  title_value atom_soup = get_text_strip t
  /\ In (text_tag "title" (title_value atom_soup))
        (contents (convert_entry entry)).
Proof.
  intros Hbefore Hentry Ht. cbv zeta.
  pose proof (find_first_match "title" entry eq_refl) as Hf.
  rewrite Ht in Hf. destruct Hf as [_ [Hname [b' [a' [Hdesc Hb']]]]].
  set (g := fun c : PageElement => c :: descendants c).
  assert (Htitle :
            title_value
              (Output.BeautifulSoup [Tag p "feed" a (before ++ entry :: after)])
            = get_text_strip t).
  { unfold title_value.
    rewrite (find_some_first "title" _ t
               (Tag p "feed" a (before ++ entry :: after)
                    :: flat_map g before ++ entry :: b')%list
               (a' ++ flat_map g after ++ [])%list eq_refl);
      [reflexivity | | exact Hname |].
    - unfold Output.BeautifulSoup. cbn [descendants flat_map]. fold g.
      rewrite flat_map_app. cbn [flat_map]. unfold g at 2. rewrite Hdesc.
      cbn [app]. f_equal. rewrite !app_nil_r, <- !app_assoc.
      reflexivity.
    - intros d [<- | Hd]; [reflexivity|].
      apply in_app_or in Hd. destruct Hd as [Hd | [<- | Hd]].
      + apply in_flat_map in Hd. destruct Hd as [c [Hc [<- | Hd]]].
        * now apply Hbefore.
        * apply (proj2 (Hbefore c Hc)). now apply In_descendants.
      + exact Hentry.
      + now apply Hb'. }
  split; [exact Htitle|].
  rewrite Htitle, convert_entry_parts. cbn [contents].
  apply in_or_app; left. unfold title_part. rewrite Ht. now left.
Qed.

Lemma feed_title_from_first_entry_witness :
  let entry :=
    Tag None "entry" [] [Tag None "title" [] [Str NavigableString " First post "]] in
  let atom_soup :=
    Output.BeautifulSoup
      [Tag None "feed" []
           ([Tag None "id" [] [Str NavigableString "urn:feed"]]
              ++ entry :: [Tag None "entry" [] []])] in
  title_value atom_soup
  = get_text_strip (Tag None "title" [] [Str NavigableString " First post "])
  /\ In (text_tag "title" (title_value atom_soup))
        (contents (convert_entry entry)).
Proof.
  apply (feed_title_from_first_entry
           None [] [Tag None "id" [] [Str NavigableString "urn:feed"]]
           [Tag None "entry" [] []]
           (Tag None "entry" []
                [Tag None "title" [] [Str NavigableString " First post "]])
           (Tag None "title" [] [Str NavigableString " First post "]));
    try reflexivity.
  intros c [<- | []]. split; [reflexivity|].
  intros d Hd. inversion Hd as [? ? ? ? ? Hin | ? ? ? ? ? ? Hin Hd'];
    subst; destruct Hin as [<- | []]; [reflexivity | inversion Hd'].
Defined.

(** ** More date forms *)

Local Open Scope Z_scope.

Lemma parse_isodate_only
      (y1 y2 y3 y4 m1 m2 d1 d2 : ascii) (Y M D : Z) :
  py_int (String y1 (String y2 (String y3 (String y4 "")))) = Some Y ->
  py_int (String m1 (String m2 "")) = Some M ->
  py_int (String d1 (String d2 "")) = Some D ->
  parse_isodate
    (String y1 (String y2 (String y3 (String y4 (String "-"
       (String m1 (String m2 (String "-" (String d1 (String d2 ""))))))))))
  = Some (Y, M, D, 10%nat).
Proof.
  intros HY HM HD. unfold parse_isodate, parse_isodate_common.
  cbn [String.length Nat.ltb Nat.leb PyStr.slice substring Nat.sub Nat.add].
  rewrite HY. cbn [DATE_SEP String.eqb Ascii.eqb Bool.eqb andb negb].
  cbn [String.length Nat.ltb Nat.leb PyStr.slice substring Nat.sub Nat.add].
  rewrite HM.
  cbn [String.length Nat.ltb Nat.leb PyStr.slice substring Nat.sub Nat.add
       DATE_SEP String.eqb Ascii.eqb Bool.eqb andb negb].
  rewrite HD. reflexivity.
Qed.

(** The time part [hh:mm:ss] followed by [Z]. *)
Lemma parse_isotime_utc (h1 h2 m1 m2 s1 s2 : ascii) (h mi s : Z) :
  is_digit h1 = true ->
  py_int (String h1 (String h2 "")) = Some h ->
  py_int (String m1 (String m2 "")) = Some mi ->
  py_int (String s1 (String s2 "")) = Some s ->
  0 <= h <= 23 ->
  parse_isotime
    (String h1 (String h2 (String ":" (String m1 (String m2 (String ":"
       (String s1 (String s2 "Z"))))))))
  = Some (h, mi, s, 0, Some 0).
Proof.
  intros Hh1 Hh Hm Hs Hh23.
  set (timestr := String h1 (String h2 (String ":" (String m1 (String m2
                    (String ":" (String s1 (String s2 "Z")))))))).
  unfold parse_isotime.
  replace (Nat.ltb (String.length timestr) 2) with false by reflexivity.
  rewrite isotime_loop_step. cbv zeta.
  replace (Nat.leb (String.length timestr) 0) with false by reflexivity.
  change (PyStr.slice 0 (0 + 1) timestr) with (String h1 "").
  rewrite (proj2 (digit_facts h1 Hh1)).
  cbn [Nat.eqb andb Nat.ltb Nat.leb].
  change (PyStr.slice 0 (0 + 2) timestr) with (String h1 (String h2 "")).
  rewrite Hh. cbn [set_component Nat.add].
  rewrite isotime_loop_step. cbv zeta.
  replace (Nat.leb (String.length timestr) 2) with false by reflexivity.
  change (PyStr.slice 2 (2 + 1) timestr) with ":"%string.
  cbn [String.eqb Ascii.eqb Bool.eqb orb andb Nat.eqb TIME_SEP Nat.ltb Nat.leb
       Nat.add].
  change (PyStr.slice 3 5 timestr) with (String m1 (String m2 "")).
  rewrite Hm. cbn [set_component Nat.add].
  rewrite isotime_loop_step. cbv zeta.
  replace (Nat.leb (String.length timestr) 5) with false by reflexivity.
  change (PyStr.slice 5 (5 + 1) timestr) with ":"%string.
  cbn [String.eqb Ascii.eqb Bool.eqb orb andb Nat.eqb TIME_SEP Nat.ltb Nat.leb
       Nat.add].
  change (PyStr.slice 6 8 timestr) with (String s1 (String s2 "")).
  rewrite Hs. cbn [set_component Nat.add].
  rewrite isotime_loop_step. cbv zeta.
  replace (Nat.leb (String.length timestr) 8) with false by reflexivity.
  change (PyStr.slice 8 (8 + 1) timestr) with "Z"%string.
  change (PyStr.slice_from 8 timestr) with "Z"%string.
  cbn [String.eqb Ascii.eqb Bool.eqb orb parse_tzstr].
  change (String.length timestr) with 9%nat. cbn [Nat.leb].
  replace (h =? 24) with false by (symmetry; apply Z.eqb_neq; lia).
  reflexivity.
Qed.

Lemma all_ascii_two_digits (n : Z) :
  0 <= n <= 99 -> all_ascii (fmt_d 2 n) = true.
Proof.
  intros Hn. destruct (two_digits n Hn) as [a [b [E [Da [Db _]]]]].
  rewrite E. cbn [all_ascii].
  now rewrite (proj1 (digit_facts a Da)), (proj1 (digit_facts b Db)).
Qed.

Lemma all_ascii_four_digits (n : Z) :
  0 <= n <= 9999 -> all_ascii (fmt_d 4 n) = true.
Proof.
  intros Hn.
  destruct (four_digits n Hn) as [a [b [c [d [E [Da [Db [Dc [Dd _]]]]]]]]].
  rewrite E. cbn [all_ascii].
  now rewrite (proj1 (digit_facts a Da)), (proj1 (digit_facts b Db)),
    (proj1 (digit_facts c Dc)), (proj1 (digit_facts d Dd)).
Qed.

Lemma valid_date_checked (Y M D : Z) :
  1 <= Y <= 9999 -> 1 <= M <= 12 -> 1 <= D <= days_in_month Y M ->
  check_date_fields Y M D = true.
Proof.
  intros HY HM HD. unfold check_date_fields, MINYEAR, MAXYEAR.
  repeat (apply andb_true_iff; split); apply Z.leb_le; lia.
Qed.

Lemma day_at_most_31 (Y M D : Z) :
  1 <= M <= 12 -> D <= days_in_month Y M -> D <= 31.
Proof.
  intros HM HD. unfold days_in_month, DAYS_IN_MONTH in HD.
  destruct ((M =? 2) && is_leap Y); [lia|].
  assert (HM' : M = 1 \/ M = 2 \/ M = 3 \/ M = 4 \/ M = 5 \/ M = 6 \/ M = 7
                \/ M = 8 \/ M = 9 \/ M = 10 \/ M = 11 \/ M = 12) by lia.
  repeat (destruct HM' as [-> | HM']; [lia|]). subst. lia.
Qed.

(** The texts [YYYY-MM-DD] and [YYYY-MM-DDThh:mm:ssZ]. *)
Definition iso_date_text (Y M D : Z) : string :=
  (fmt_d 4 Y ++ "-" ++ fmt_d 2 M ++ "-" ++ fmt_d 2 D)%string.

Definition iso_utc_text (Y M D h mi s : Z) : string :=
  (iso_date_text Y M D ++ "T" ++ fmt_d 2 h ++ ":" ++ fmt_d 2 mi ++ ":"
   ++ fmt_d 2 s ++ "Z")%string.

Definition rfc822_date_time (Y M D h mi s : Z) : string :=
  (rfc822_day Y M D ++ ", " ++ fmt_d 2 D ++ " " ++ rfc822_month M
   ++ " " ++ fmt_d 4 Y ++ " " ++ fmt_d 2 h ++ ":" ++ fmt_d 2 mi ++ ":"
   ++ fmt_d 2 s)%string.

Lemma all_ascii_iso_date (Y M D : Z) :
  0 <= Y <= 9999 -> 0 <= M <= 99 -> 0 <= D <= 99 ->
  all_ascii (iso_date_text Y M D) = true.
Proof.
  intros HY HM HD. unfold iso_date_text.
  rewrite !all_ascii_app, all_ascii_four_digits, !all_ascii_two_digits by lia.
  reflexivity.
Qed.

Lemma isoparse_date_only (Y M D : Z) :
  0 <= Y <= 9999 -> 0 <= M <= 99 -> 0 <= D <= 99 ->
  isoparse (iso_date_text Y M D) = new_datetime Y M D 0 0 0 0 None.
Proof.
  intros HY HM HD. unfold isoparse.
  rewrite (all_ascii_iso_date Y M D HY HM HD). cbn [negb].
  unfold iso_date_text.
  destruct (four_digits Y HY) as [y1 [y2 [y3 [y4 [EY [_ [_ [_ [_ IY]]]]]]]]].
  destruct (two_digits M HM) as [m1 [m2 [EM [_ [_ IM]]]]].
  destruct (two_digits D HD) as [d1 [d2 [ED [_ [_ ID]]]]].
  rewrite EY, EM, ED. cbn [String.append].
  rewrite (parse_isodate_only y1 y2 y3 y4 m1 m2 d1 d2 Y M D IY IM ID).
  reflexivity.
Qed.

Lemma rfc_822_date_only (Y M D : Z) :
  1 <= Y <= 9999 -> 1 <= M <= 12 -> 1 <= D <= days_in_month Y M ->
  rfc_822_date (iso_date_text Y M D)
  = Some (rfc822_date_time Y M D 0 0 0 ++ " -0000")%string.
Proof.
  intros HY HM HD. pose proof (day_at_most_31 Y M D HM (proj2 HD)) as HD31.
  unfold rfc_822_date. rewrite isoparse_date_only by lia.
  unfold new_datetime. rewrite (valid_date_checked Y M D HY HM HD).
  cbn [andb check_time_fields Z.leb Z.compare]. unfold format_datetime.
  cbn [tzinfo year month day hour minute second]. unfold rfc822_date_time.
  rewrite (day_name_weekday Y M D HM), (month_name_rfc822 M HM).
  rewrite !append_assoc. reflexivity.
Qed.

Lemma rfc_822_date_invalid (Y M D : Z) :
  0 <= Y <= 9999 -> 0 <= M <= 99 -> 0 <= D <= 99 ->
  check_date_fields Y M D = false ->
  rfc_822_date (iso_date_text Y M D) = None.
Proof.
  intros HY HM HD Hbad. unfold rfc_822_date.
  rewrite isoparse_date_only by lia.
  unfold new_datetime. now rewrite Hbad.
Qed.

Lemma rfc_822_date_utc (Y M D h mi s : Z) :
  1 <= Y <= 9999 -> 1 <= M <= 12 -> 1 <= D <= days_in_month Y M ->
  0 <= h <= 23 -> 0 <= mi <= 59 -> 0 <= s <= 59 ->
  rfc_822_date (iso_utc_text Y M D h mi s)
  = Some (rfc822_date_time Y M D h mi s ++ " +0000")%string.
Proof.
  intros HY HM HD Hh Hmi Hs.
  pose proof (day_at_most_31 Y M D HM (proj2 HD)) as HD31.
  assert (Hascii : all_ascii (iso_utc_text Y M D h mi s) = true).
  { unfold iso_utc_text.
    rewrite !all_ascii_app, all_ascii_iso_date, !all_ascii_two_digits by lia.
    reflexivity. }
  unfold rfc_822_date, isoparse. rewrite Hascii. cbn [negb].
  unfold iso_utc_text, iso_date_text.
  destruct (four_digits Y) as [y1 [y2 [y3 [y4 [EY [_ [_ [_ [_ IY]]]]]]]]];
    [lia|].
  destruct (two_digits M) as [m1 [m2 [EM [_ [_ IM]]]]]; [lia|].
  destruct (two_digits D) as [d1 [d2 [ED [_ [_ ID]]]]]; [lia|].
  destruct (two_digits h) as [h1 [h2 [Eh [Dh1 [_ Ih]]]]]; [lia|].
  destruct (two_digits mi) as [i1 [i2 [Ei [_ [_ Ii]]]]]; [lia|].
  destruct (two_digits s) as [s1 [s2 [Es [_ [_ Is]]]]]; [lia|].
  rewrite EY, EM, ED, Eh, Ei, Es. cbn [String.append].
  rewrite (parse_isodate_extended y1 y2 y3 y4 m1 m2 d1 d2 Y M D "T" _ IY IM ID).
  cbn [String.length Nat.ltb Nat.leb PyStr.slice_from Nat.add].
  rewrite (parse_isotime_utc h1 h2 i1 i2 s1 s2 h mi s Dh1 Ih Ii Is Hh).
  replace (h =? 24) with false by (symmetry; apply Z.eqb_neq; lia).
  unfold new_datetime. rewrite (valid_date_checked Y M D HY HM HD).
  unfold check_time_fields.
  repeat match goal with
         | |- context [?a <=? ?b] =>
             replace (a <=? b) with true by (symmetry; apply Z.leb_le; lia)
         end.
  cbn [andb]. unfold format_datetime.
  cbn [tzinfo year month day hour minute second].
  change (strftime_z 0) with (Some "+0000"%string).
  rewrite (day_name_weekday Y M D HM), (month_name_rfc822 M HM).
  unfold rfc822_date_time. rewrite !append_assoc. reflexivity.
Qed.

Lemma iso_date_text_not_empty (Y M D : Z) : iso_date_text Y M D <> ""%string.
Proof. unfold iso_date_text. destruct (fmt_d 4 Y); discriminate. Qed.

Lemma iso_utc_text_not_empty (Y M D h mi s : Z) :
  iso_utc_text Y M D h mi s <> ""%string.
Proof.
  unfold iso_utc_text, iso_date_text. destruct (fmt_d 4 Y); discriminate.
Qed.

(** X13. When the date string selected for an entry has the form
    YYYY-MM-DDThh:mm:ssZ with valid fields, the item gets a [pubDate]
    with the same date and time and the zone +0000. *)
Theorem utc_date_rendered (entry : PageElement) (Y M D h mi s : Z) :
  1 <= Y <= 9999 -> 1 <= M <= 12 -> 1 <= D <= days_in_month Y M ->
  0 <= h <= 23 -> 0 <= mi <= 59 -> 0 <= s <= 59 ->
  date_str entry = Some (iso_utc_text Y M D h mi s) ->
  In (text_tag "pubDate" (rfc822_date_time Y M D h mi s ++ " +0000"))
     (contents (convert_entry entry)).
Proof.
  intros HY HM HD Hh Hmi Hs Hdate.
  apply pubDate_emitted with (iso_utc_text Y M D h mi s);
    [assumption | apply iso_utc_text_not_empty | now apply rfc_822_date_utc].
Qed.

Lemma utc_date_rendered_witness :
  In (text_tag "pubDate" "Wed, 01 Jan 2020 00:00:00 +0000")
     (contents
        (convert_entry
           (Tag None "entry" []
                [Tag None "updated" []
                     [Str NavigableString "2020-01-01T00:00:00Z"]]))).
Proof.
  apply (utc_date_rendered
           (Tag None "entry" []
                [Tag None "updated" []
                     [Str NavigableString "2020-01-01T00:00:00Z"]])
           2020 1 1 0 0 0);
    try lia; try reflexivity.
  unfold days_in_month. simpl. lia.
Defined.

(** X14. When the date string selected for an entry is a date alone,
    YYYY-MM-DD with valid fields, the item gets a [pubDate] at midnight
    of that day with the zone -0000, which marks a time without a known
    offset. *)
Theorem date_only_rendered (entry : PageElement) (Y M D : Z) :
  1 <= Y <= 9999 -> 1 <= M <= 12 -> 1 <= D <= days_in_month Y M ->
  date_str entry = Some (iso_date_text Y M D) ->
  In (text_tag "pubDate" (rfc822_date_time Y M D 0 0 0 ++ " -0000"))
     (contents (convert_entry entry)).
Proof.
  intros HY HM HD Hdate.
  apply pubDate_emitted with (iso_date_text Y M D);
    [assumption | apply iso_date_text_not_empty | now apply rfc_822_date_only].
Qed.

Lemma date_only_rendered_witness :
  In (text_tag "pubDate" "Sat, 29 Feb 2020 00:00:00 -0000")
     (contents
        (convert_entry
           (Tag None "entry" []
                [Tag None "published" [] [Str NavigableString " 2020-02-29 "]]))).
Proof.
  apply (date_only_rendered
           (Tag None "entry" []
                [Tag None "published" [] [Str NavigableString " 2020-02-29 "]])
           2020 2 29);
    try lia; try reflexivity.
  unfold days_in_month. simpl. lia.
Defined.

(** X15. A date string YYYY-MM-DD whose fields do not name a day of the
    calendar (a month above 12, a day beyond the end of the month, the
    year 0) is not adjusted to a nearby day: the item gets no
    [pubDate]. *)
Theorem invalid_calendar_date_rejected (entry : PageElement) (Y M D : Z) :
  0 <= Y <= 9999 -> 0 <= M <= 99 -> 0 <= D <= 99 ->
  check_date_fields Y M D = false ->
  date_str entry = Some (iso_date_text Y M D) ->
  has_child "pubDate" (convert_entry entry) = false.
Proof.
  intros HY HM HD Hbad Hdate.
  rewrite has_pubDate, Hdate, (rfc_822_date_invalid Y M D HY HM HD Hbad).
  apply andb_false_r.
Qed.

Lemma invalid_calendar_date_rejected_witness :
  has_child "pubDate"
            (convert_entry
               (Tag None "entry" []
                    [Tag None "published" []
                         [Str NavigableString "2021-02-29"]]))
  = false.
Proof.
  apply (invalid_calendar_date_rejected
           (Tag None "entry" []
                [Tag None "published" [] [Str NavigableString "2021-02-29"]])
           2021 2 29);
    try lia; reflexivity.
Defined.

(** ** The written text *)

Local Close Scope Z_scope.

Lemma substitute_xml_cons (c : ascii) (r : string) :
  Output.substitute_xml (String c r)
  = Output.substitute_xml (String c "") ++ Output.substitute_xml r.
Proof.
  cbn [Output.substitute_xml].
  destruct (Ascii.eqb c "&"); [reflexivity|].
  destruct (Ascii.eqb c "<"); [reflexivity|].
  destruct (Ascii.eqb c ">"); reflexivity.
Qed.

Lemma substitute_xml_not_empty (c : ascii) (r : string) :
  Output.substitute_xml (String c r) <> "".
Proof.
  cbn [Output.substitute_xml].
  destruct (Ascii.eqb c "&"); [discriminate|].
  destruct (Ascii.eqb c "<"); [discriminate|].
  destruct (Ascii.eqb c ">"); discriminate.
Qed.

Lemma substitute_xml_space (c : ascii) (r : string) :
  PyStr.isspace c = true ->
  Output.substitute_xml (String c r) = String c (Output.substitute_xml r).
Proof.
  intros H. special_cases c; try (vm_compute in H; discriminate H).
  use_neq. now apply substitute_xml_other.
Qed.

Lemma substitute_xml_starts_clean (c : ascii) (r : string) :
  PyStr.isspace c = false ->
  starts_clean (Output.substitute_xml (String c r)) = true.
Proof.
  intros H. special_cases c; try reflexivity.
  use_neq. rewrite substitute_xml_other by assumption.
  cbn [starts_clean]. now rewrite H.
Qed.

Lemma lstrip_substitute_xml (s : string) :
  PyStr.lstrip (Output.substitute_xml s)
  = Output.substitute_xml (PyStr.lstrip s).
Proof.
  induction s as [| c r IH]; [reflexivity|].
  destruct (PyStr.isspace c) eqn:Hc.
  - rewrite (substitute_xml_space c r Hc). cbn [PyStr.lstrip].
    now rewrite Hc.
  - cbn [PyStr.lstrip]. rewrite Hc.
    apply starts_clean_lstrip, substitute_xml_starts_clean, Hc.
Qed.

Lemma rstrip_append_blank (a x : string) :
  PyStr.rstrip x = "" -> PyStr.rstrip (a ++ x) = PyStr.rstrip a.
Proof.
  intros Hx. induction a as [| c a IH]; [exact Hx|].
  cbn [String.append PyStr.rstrip]. now rewrite IH.
Qed.

Lemma rstrip_append_kept (a x : string) :
  PyStr.rstrip x <> "" -> PyStr.rstrip (a ++ x) = a ++ PyStr.rstrip x.
Proof.
  intros Hx. induction a as [| c a IH]; [reflexivity|].
  cbn [String.append PyStr.rstrip]. rewrite IH.
  destruct (a ++ PyStr.rstrip x) eqn:E; [| reflexivity].
  destruct a; [cbn in E; congruence | discriminate].
Qed.

Lemma rstrip_substitute_one (c : ascii) :
  PyStr.isspace c = false ->
  PyStr.rstrip (Output.substitute_xml (String c ""))
  = Output.substitute_xml (String c "").
Proof.
  intros H. special_cases c; try reflexivity.
  use_neq. rewrite substitute_xml_other by assumption.
  cbn [Output.substitute_xml PyStr.rstrip]. now rewrite H.
Qed.

Lemma rstrip_substitute_xml (s : string) :
  PyStr.rstrip (Output.substitute_xml s)
  = Output.substitute_xml (PyStr.rstrip s).
Proof.
  induction s as [| c r IH]; [reflexivity|].
  cbn [PyStr.rstrip]. rewrite (substitute_xml_cons c r).
  destruct (PyStr.rstrip r) as [| c' r'] eqn:Hr.
  - rewrite (rstrip_append_blank _ _ IH).
    destruct (PyStr.isspace c) eqn:Hc.
    + rewrite (substitute_xml_space c "" Hc).
      cbn [PyStr.rstrip Output.substitute_xml]. now rewrite Hc.
    + now apply rstrip_substitute_one.
  - rewrite rstrip_append_kept
      by (rewrite IH; apply substitute_xml_not_empty).
    rewrite IH. symmetry. apply substitute_xml_cons.
Qed.

(** Escaping and stripping commute: no replacement begins or ends with
    white space. *)
Lemma strip_substitute_xml (s : string) :
  PyStr.strip (Output.substitute_xml s)
  = Output.substitute_xml (PyStr.strip s).
Proof.
  unfold PyStr.strip. now rewrite lstrip_substitute_xml, rstrip_substitute_xml.
Qed.



Lemma get_length_append (a : string) (c : ascii) (r : string) :
  get (String.length a) (a ++ String c r) = Some c.
Proof. induction a as [| x a IH]; [reflexivity | exact IH]. Qed.

Lemma ends_with_newline_append (a : string) (c : ascii) :
  Output.ends_with_newline (a ++ String c "") = Ascii.eqb c "010".
Proof.
  unfold Output.ends_with_newline. rewrite length_append.
  cbn [String.length].
  replace (String.length a + 1 - 1) with (String.length a) by lia.
  now rewrite get_length_append.
Qed.

(** [Tag.decode_contents]: the loop over the children inside
    [decode]. *)
Definition decode_contents (indent_contents : option nat)
  : list PageElement -> string :=
  fix decode_contents (l : list PageElement) : string :=
    match l with
    | [] => ""
    | c :: r =>
        (match c with
         | Str cls s =>
             let text := Output.output_ready cls s in
             match indent_contents with
             | Some lvl =>
                 let text := PyStr.strip text in
                 if PyStr.truthy text
                 then Output.indent (lvl - 1) ++ text ++ Output.newline
                 else ""
             | None => text
             end
         | Tag _ _ _ _ =>
             Output.decode indent_contents
                           (match r with [] => false | _ => true end) c
         end) ++ decode_contents r
    end.

Lemma decode_pretty (l : nat) (next : bool) (n : string)
      (attrs : list (string * string)) (c : PageElement)
      (cs : list PageElement) :
  Output.hidden n = false ->
  Output.decode (Some l) next (Tag None n attrs (c :: cs))
  = let contents := decode_contents (Some (S l)) (c :: cs) in
    Output.indent (l - 1) ++ "<" ++ n ++ Output.attribute_string attrs ++ ">"
    ++ Output.newline ++ contents
    ++ (if PyStr.truthy contents && negb (Output.ends_with_newline contents)
        then Output.newline else "")
    ++ Output.indent (l - 1) ++ "</" ++ n ++ ">"
    ++ (if next then Output.newline else "").
Proof.
  intros Hh.
  change (Output.decode (Some l) next (Tag None n attrs (c :: cs)))
    with (let contents := decode_contents (Some (S l)) (c :: cs) in
          if Output.hidden n then contents
          else
            Output.indent (l - 1) ++ "<" ++ "" ++ n
            ++ Output.attribute_string attrs ++ "" ++ ">"
            ++ Output.newline ++ contents
            ++ (if true && PyStr.truthy contents
                   && negb (Output.ends_with_newline contents)
                then Output.newline else "")
            ++ (if true && PyStr.truthy ("</" ++ "" ++ n ++ ">")
                then Output.indent (l - 1) else "")
            ++ ("</" ++ "" ++ n ++ ">")
            ++ (if true && PyStr.truthy ("</" ++ "" ++ n ++ ">") && next
                then Output.newline else "")).
  cbv zeta. rewrite Hh.
  change (PyStr.truthy ("</" ++ "" ++ n ++ ">")) with true.
  cbn [andb]. rewrite (append_assoc "</" (n ++ ">")), (append_assoc n ">").
  reflexivity.
Qed.

Lemma decode_document (x : PageElement) :
  Output.decode (Some 0) false (Output.BeautifulSoup [x])
  = decode_contents (Some 1) [x].
Proof. reflexivity. Qed.

Lemma decode_contents_tag (ic : option nat) (p : option string) (n : string)
      (a : list (string * string)) (cs r : list PageElement) :
  decode_contents ic (Tag p n a cs :: r)
  = Output.decode ic (match r with [] => false | _ => true end) (Tag p n a cs)
    ++ decode_contents ic r.
Proof. reflexivity. Qed.

Lemma decode_contents_text_tag (ic : option nat) (n v : string)
      (r : list PageElement) :
  decode_contents ic (text_tag n v :: r)
  = Output.decode ic (match r with [] => false | _ => true end) (text_tag n v)
    ++ decode_contents ic r.
Proof. reflexivity. Qed.

Lemma decode_pretty_text_tag (name v : string) (l : nat) (next : bool) :
  Output.hidden name = false ->
  Output.decode (Some l) next (text_tag name v)
  = Output.indent (l - 1) ++ "<" ++ name ++ ">" ++ Output.newline
    ++ (if PyStr.truthy (Output.substitute_xml (PyStr.strip v))
        then Output.indent l ++ Output.substitute_xml (PyStr.strip v)
             ++ Output.newline
        else "")
    ++ Output.indent (l - 1) ++ "</" ++ name ++ ">"
    ++ (if next then Output.newline else "").
Proof.
  intros Hh. unfold text_tag, new_tag, set_string.
  rewrite (decode_pretty l next name [] _ [] Hh). cbv zeta.
  change (decode_contents (Some (S l)) [Str NavigableString v])
    with ((if PyStr.truthy (PyStr.strip (Output.substitute_xml v))
           then Output.indent (S l - 1)
                ++ PyStr.strip (Output.substitute_xml v) ++ Output.newline
           else "") ++ "").
  rewrite append_empty_r, strip_substitute_xml.
  replace (S l - 1) with l by lia.
  change (Output.attribute_string []) with "".
  destruct (PyStr.truthy (Output.substitute_xml (PyStr.strip v))).
  - replace (Output.ends_with_newline
               (Output.indent l ++ Output.substitute_xml (PyStr.strip v)
                ++ Output.newline))
      with true
      by (symmetry; rewrite <- append_assoc;
          apply (ends_with_newline_append _ "010")).
    rewrite andb_false_r. reflexivity.
  - reflexivity.
Qed.



Lemma ends_with_gt (a : string) :
  Output.ends_with_newline (a ++ ">") = false.
Proof. apply (ends_with_newline_append a ">"). Qed.

(** X17. Whatever the feed, the text written to the file begins with
    the XML declaration, the [rss] start tag with its two attributes in
    alphabetical order and in double quotes, and the start tags of
    [channel] and of the channel title, each on a line of its own and
    indented by its depth. *)
Theorem written_document_frame (atom_soup : PageElement) :
  exists rest,
    Output.prettify (fst (build_rss atom_soup))
    = "<?xml version=" ++ Output.dquote ++ "1.0" ++ Output.dquote
      ++ " encoding=" ++ Output.dquote ++ "utf-8" ++ Output.dquote ++ "?>"
      ++ Output.newline
      ++ "<rss version=" ++ Output.dquote ++ "2.0" ++ Output.dquote
      ++ " xmlns:content=" ++ Output.dquote ++ content_namespace
      ++ Output.dquote ++ ">" ++ Output.newline
      ++ " <channel>" ++ Output.newline
      ++ "  <title>" ++ Output.newline
      ++ rest.
Proof.
  rewrite build_rss_eq. cbn [fst app]. unfold Output.prettify.
  rewrite decode_document.
  set (rest := text_tag "link" (link_value atom_soup)
               :: text_tag "description" (desc_value atom_soup)
               :: map convert_entry (find_all "entry" atom_soup)).
  assert (Htitle : exists R,
             decode_contents (Some 3)
               (text_tag "title" (title_value atom_soup) :: rest)
             = "  <title>" ++ Output.newline ++ R).
  { rewrite decode_contents_text_tag.
    rewrite decode_pretty_text_tag by reflexivity.
    eexists. rewrite !append_assoc. reflexivity. }
  destruct Htitle as [R HR].
  assert (Hchannel : exists B,
             Output.decode (Some 2) false
               (Tag None "channel" []
                    (text_tag "title" (title_value atom_soup) :: rest))
             = (" <channel>" ++ Output.newline ++ "  <title>"
                ++ Output.newline ++ B ++ " </channel") ++ ">").
  { rewrite decode_pretty by reflexivity. cbv zeta. rewrite HR.
    match goal with
    | |- context [if ?a && ?b then Output.newline else ""] =>
        generalize (if a && b then Output.newline else "")
    end.
    intros X. exists (R ++ X). rewrite !append_assoc. reflexivity. }
  destruct Hchannel as [B HB].
  exists (B ++ " </channel>" ++ Output.newline ++ "</rss>").
  rewrite decode_contents_tag, decode_pretty by reflexivity. cbv zeta.
  rewrite decode_contents_tag.
  change (decode_contents (Some 2) []) with "".
  change (decode_contents (Some 1) []) with "".
  rewrite !append_empty_r, HB, ends_with_gt.
  rewrite !append_assoc. reflexivity.
Qed.
